(** * PCM readiness checkers: [scripts/validate-setup.py] and
      [scripts/test-startup.py]

    A shallow embedding of the two scripts.  Python statements become
    computations in a state-and-exception monad over the process state
    (working directory, [sys.path], standard output, the modules whose
    import was attempted) and the world the process observes (the file
    system and what loading a module does).

    What the interpreter and the operating system do is taken as
    follows: [print] and [stat] always return; a path is absent, a
    regular file, a directory or something else; what an import does
    is given by a loader that is told the directories [sys.path]
    denotes, and is not derived from the file system; an exception is
    known by its class and its text. *)

From Stdlib Require Import Ascii.
From Stdlib Require String.
From stdpp Require Import base strings list gmap.

(** ** The Python run-time the scripts rely on *)

Module Python.

(** The part of the built-in exception hierarchy that the scripts'
    [except] clauses can tell apart, with a few concrete leaf classes. *)
Inductive pyclass :=
  | BaseException
  | SystemExit
  | KeyboardInterrupt
  | Exception
  | ImportError
  | ModuleNotFoundError
  | AttributeError
  | TypeError
  | SyntaxError
  | ValueError
  | OSError
  | FileNotFoundError
  | NotADirectoryError.

(** The direct base class; [BaseException] is the root. *)
Definition base (c : pyclass) : option pyclass :=
  match c with
  | BaseException => None
  | SystemExit | KeyboardInterrupt | Exception => Some BaseException
  | ImportError | AttributeError | TypeError | SyntaxError
  | ValueError | OSError => Some Exception
  | ModuleNotFoundError => Some ImportError
  | FileNotFoundError | NotADirectoryError => Some OSError
  end.

Definition pyclass_eqb (c d : pyclass) : bool :=
  match c, d with
  | BaseException, BaseException | SystemExit, SystemExit
  | KeyboardInterrupt, KeyboardInterrupt | Exception, Exception
  | ImportError, ImportError | ModuleNotFoundError, ModuleNotFoundError
  | AttributeError, AttributeError | TypeError, TypeError
  | SyntaxError, SyntaxError | ValueError, ValueError
  | OSError, OSError | FileNotFoundError, FileNotFoundError
  | NotADirectoryError, NotADirectoryError => true
  | _, _ => false
  end.

(** [issubclass c d]: walk up the chain of bases, which has depth 4 at most. *)
Fixpoint issubclass_upto (fuel : nat) (c d : pyclass) : bool :=
  pyclass_eqb c d ||
  match fuel with
  | O => false
  | S fuel' =>
      match base c with
      | Some b => issubclass_upto fuel' b d
      | None => false
      end
  end.

Definition issubclass : pyclass → pyclass → bool := issubclass_upto 4.

(** An exception object: its class and [str(e)]. *)
Record exn := Exn { exn_class : pyclass; exn_str : string }.

Definition isinstance (e : exn) (c : pyclass) : bool :=
  issubclass (exn_class e) c.

(** The outcome of evaluating a Python expression or statement. *)
Inductive result (A : Type) :=
  | Returns (a : A)
  | Raises (e : exn).
Arguments Returns {A} a.
Arguments Raises {A} e.

(** *** What the scripts import *)

(** The object [get_settings()] returns.  [app_name] is the outcome of
    evaluating and formatting [settings.app_name]. *)
Record settings := Settings { app_name : result string }.

(** A name bound in a module: a callable without arguments (what calling
    it does), or any other object (an [APIRouter], say). *)
Inductive pyobj :=
  | Callable (call : result settings)
  | Object.

(** A loaded module, as its namespace. *)
Record module := Module_ { attr : string → option pyobj }.

(** *** Paths *)

(** An absolute path, as its components below the root directory. *)
Abbreviation path := (list string).

(** What [stat] finds at a path (symbolic links followed); absent paths
    are not in the map. *)
Inductive node := File | Dir | Special.

(** *** Process state *)

Record state := State {
  (** the file system *)
  fs : gmap path node;
  (** what executing [import name] does, given the directories of
      [sys.path] resolved against the working directory *)
  loader : list path → string → result module;
  cwd : path;
  sys_path : list string;
  (** one entry per [print] call *)
  stdout : list string;
  (** the modules whose import was attempted, oldest first *)
  import_log : list string;
}.

(** The state once [lines] have been printed. *)
Definition with_output (lines : list string) (s : state) : state :=
  State (fs s) (loader s) (cwd s) (sys_path s) (stdout s ++ lines) (import_log s).

(** The state once the import of [name] has been attempted. *)
Definition with_import (name : string) (s : state) : state :=
  State (fs s) (loader s) (cwd s) (sys_path s) (stdout s) (import_log s ++ [name]).

(** The state once [entry] has been put in front of [sys.path]. *)
Definition with_sys_path (entry : string) (s : state) : state :=
  State (fs s) (loader s) (cwd s) (entry :: sys_path s) (stdout s) (import_log s).

(** The state once the working directory is [wd]. *)
Definition with_cwd (wd : path) (s : state) : state :=
  State (fs s) (loader s) wd (sys_path s) (stdout s) (import_log s).

(** *** The monad of statements *)

Definition M (A : Type) : Type := state → result A * state.

Definition ret {A} (a : A) : M A := λ s, (Returns a, s).

Definition bind {A B} (m : M A) (k : A → M B) : M B :=
  λ s, match m s with
       | (Returns a, s') => k a s'
       | (Raises e, s') => (Raises e, s')
       end.

Definition raise {A} (e : exn) : M A := λ s, (Raises e, s).

Definition lift {A} (r : result A) : M A := λ s, (r, s).

Declare Scope py_scope.
Delimit Scope py_scope with py.
Notation "x <- m ;; k" := (bind m (λ x, k))
  (at level 100, m at level 99, k at level 200, right associativity) : py_scope.
Notation "m ;; k" := (bind m (λ _, k))
  (at level 100, k at level 200, right associativity) : py_scope.
Open Scope py_scope.

(** [try: body  except c1 as e: h1 e  except c2 as e: h2 e]: the first
    clause whose class the exception is an instance of handles it; an
    exception that matches no clause propagates.  State changes made by
    the body before it raised persist. *)
Fixpoint dispatch {A} (handlers : list (pyclass * (exn → M A))) (e : exn) : M A :=
  match handlers with
  | [] => raise e
  | (c, h) :: rest => if isinstance e c then h e else dispatch rest e
  end.

Definition try_except {A} (body : M A) (handlers : list (pyclass * (exn → M A))) : M A :=
  λ s, match body s with
       | (Returns a, s') => (Returns a, s')
       | (Raises e, s') => dispatch handlers e s'
       end.

(** [print(line)] *)
Definition print (line : string) : M unit :=
  λ s, (Returns tt, with_output [line] s).

(** A run of [print] calls. *)
Fixpoint print_all (lines : list string) : M unit :=
  match lines with
  | [] => ret tt
  | l :: rest => print l ;; print_all rest
  end.

(** ["\n"] *)
Definition nl : string := String "010"%char "".

(** [s * n] *)
Fixpoint str_mul (s : string) (n : nat) : string :=
  match n with
  | O => ""
  | S n' => s +:+ str_mul s n'
  end.

(** *** [pathlib] and [os] *)

(** A path as Python holds it: anchored at the root or relative. *)
Inductive pypath :=
  | Abs (parts : list string)
  | Rel (parts : list string).

(** Split at ["/"]; [acc] is the component being read, reversed. *)
Fixpoint split_slash (acc : string) (s : string) : list string :=
  match s with
  | EmptyString => [String.rev acc]
  | String c s' =>
      if Ascii.eqb c "/"%char then String.rev acc :: split_slash "" s'
      else split_slash (String c acc) s'
  end.

Definition keep_part (p : string) : bool :=
  negb (String.eqb p "" || String.eqb p ".").

(** [Path(s)]: empty and ["."] components are dropped. *)
Definition Path (s : string) : pypath :=
  let parts := List.filter keep_part (split_slash "" s) in
  match s with
  | String "/"%char _ => Abs parts
  | _ => Rel parts
  end.

(** [p.parent]: the root and the empty relative path are their own parents. *)
Definition parent (p : pypath) : pypath :=
  match p with
  | Abs parts => Abs (removelast parts)
  | Rel parts => Rel (removelast parts)
  end.

(** No ["/"] in [s]. *)
Fixpoint no_slash (s : string) : bool :=
  match s with
  | EmptyString => true
  | String c s' => negb (Ascii.eqb c "/"%char) && no_slash s'
  end.

(** A component that [Path] keeps as it stands: not empty, not ["."],
    without ["/"]. *)
Definition plain_part (p : string) : bool := keep_part p && no_slash p.

(** [str(p)] for the absolute path with components [parts]. *)
Definition abs_str (parts : list string) : string :=
  "/" +:+ String.concat "/" parts.

(** Resolution of a path against a working directory, as the operating
    system does for every system call. *)
Definition resolve (wd : path) (p : pypath) : path :=
  match p with
  | Abs parts => parts
  | Rel parts => wd ++ parts
  end.

Definition stat (p : pypath) : M (option node) :=
  λ s, (Returns (fs s !! resolve (cwd s) p), s).

(** [p.exists()] *)
Definition exists_ (p : pypath) : M bool :=
  n <- stat p ;; ret (bool_decide (is_Some n)).

(** [p.is_dir()] *)
Definition is_dir (p : pypath) : M bool :=
  n <- stat p ;;
  ret (match n with Some Dir => true | _ => false end).

(** [p.is_file()], which the scripts never call *)
Definition is_file (p : pypath) : M bool :=
  n <- stat p ;;
  ret (match n with Some File => true | _ => false end).

(** [os.chdir(p)] *)
Definition chdir (p : pypath) : M unit :=
  λ s, let target := resolve (cwd s) p in
       match fs s !! target with
       | Some Dir => (Returns tt, with_cwd target s)
       | Some _ => (Raises (Exn NotADirectoryError "Not a directory"), s)
       | None => (Raises (Exn FileNotFoundError "No such file or directory"), s)
       end.

(** *** [sys.path] and [import] *)

(** [sys.path.insert(0, entry)] *)
Definition sys_path_insert0 (entry : string) : M unit :=
  λ s, (Returns tt, with_sys_path entry s).

(** The directories [sys.path] denotes in state [s]. *)
Definition search_dirs (s : state) : list path :=
  map (λ e, resolve (cwd s) (Path e)) (sys_path s).

(** The [member] of a module [name] that was loaded, or failed to load:
    a module without the member raises [ImportError]. *)
Definition member_of (loaded : result module) (name member : string) : result pyobj :=
  match loaded with
  | Raises e => Raises e
  | Returns m =>
      match attr m member with
      | Some o => Returns o
      | None =>
          Raises (Exn ImportError
            ("cannot import name '" +:+ member +:+ "' from '" +:+ name +:+ "'"))
      end
  end.

(** What [from name import member] evaluates to in state [s]: the
    module is loaded through [sys.path], whose relative entries are
    resolved against the working directory of the moment. *)
Definition import_member (s : state) (name member : string) : result pyobj :=
  member_of (loader s (search_dirs s) name) name member.

(** [from name import member] *)
Definition from_import (name member : string) : M pyobj :=
  λ s, (import_member s name member, with_import name s).

(** [f()] *)
Definition call (f : pyobj) : M settings :=
  match f with
  | Callable r => lift r
  | Object => raise (Exn TypeError "object is not callable")
  end.

(** *** The configuration probe, phase by phase

    Both scripts probe the configuration with the same three steps:
    [from src.config import get_settings], [get_settings()] and
    [settings.app_name]. *)

Inductive phase :=
  | Importing   (** the module is resolved and loaded, the name looked up *)
  | Calling     (** [get_settings()] *)
  | Reading.    (** [settings.app_name] *)

(** The failure kinds of the spec's taxonomy for a dynamic import check. *)
Inductive failure_kind := ImportFailure | RuntimeFailure.

(** The kind a failure has by the phase it happens in. *)
Definition kind_of_phase (ph : phase) : failure_kind :=
  match ph with
  | Importing => ImportFailure
  | Calling | Reading => RuntimeFailure
  end.

Inductive probe_outcome :=
  | Loaded (name : string)
  | Failed (ph : phase) (e : exn).

(** What the three steps do when the loader [ld] searches [dirs]. *)
Definition probe_configuration (ld : list path → string → result module)
    (dirs : list path) : probe_outcome :=
  match member_of (ld dirs "src.config") "src.config" "get_settings" with
  | Raises e => Failed Importing e
  | Returns Object => Failed Calling (Exn TypeError "object is not callable")
  | Returns (Callable (Raises e)) => Failed Calling e
  | Returns (Callable (Returns st)) =>
      match app_name st with
      | Raises e => Failed Reading e
      | Returns name => Loaded name
      end
  end.

(** What [from name import router] evaluates to in state [s]. *)
Definition import_router (s : state) (name : string) : result pyobj :=
  import_member s name "router".

(** What the guarded probe evaluates to: [pass] when all three steps
    succeed, [False] when an [Exception] was caught; anything else is
    not caught. *)
Definition probe_result (probe : probe_outcome) (pass : bool) : result bool :=
  match probe with
  | Loaded _ => Returns pass
  | Failed _ e => if isinstance e Exception then Returns false else Raises e
  end.

(** *** Observing the file system *)

(** Something is at [p], seen from the working directory of [s]. *)
Definition exists_at (s : state) (p : string) : bool :=
  bool_decide (is_Some (fs s !! resolve (cwd s) (Path p))).

(** A directory is at [p]. *)
Definition dir_at (s : state) (p : string) : bool :=
  match fs s !! resolve (cwd s) (Path p) with
  | Some Dir => true
  | _ => false
  end.

(** A regular file is at [p]. *)
Definition file_at (s : state) (p : string) : bool :=
  match fs s !! resolve (cwd s) (Path p) with
  | Some File => true
  | _ => false
  end.

(** The state with whatever is at [p] removed from the file system. *)
Definition without (p : string) (s : state) : state :=
  State (delete (resolve (cwd s) (Path p)) (fs s)) (loader s) (cwd s)
        (sys_path s) (stdout s) (import_log s).

(** *** Observing a computation *)

(** A process started like [s0] was, in the world that a run ending in
    [s1] has left behind. *)
Definition next_process (s0 s1 : state) : state :=
  State (fs s1) (loader s1) (cwd s0) (sys_path s0) (stdout s0) (import_log s0).

(** The state after [lines] have been printed and the import of [names]
    has been attempted. *)
Definition after (lines names : list string) (s : state) : state :=
  State (fs s) (loader s) (cwd s) (sys_path s) (stdout s ++ lines)
        (import_log s ++ names).

(** Two computations that do the same from every state. *)
Definition eqM {A} (m m' : M A) : Prop := ∀ s, m s = m' s.

(** What [m] prints when started in [s]. *)
Definition output_of {A} (m : M A) (s : state) : list string :=
  drop (length (stdout s)) (stdout (m s).2).

(** [m] keeps the file system, the loader and the working directory, and
    only appends lines satisfying [P] to standard output. *)
Definition quiet {A} (P : string → Prop) (m : M A) : Prop :=
  ∀ s, fs (m s).2 = fs s ∧ loader (m s).2 = loader s ∧ cwd (m s).2 = cwd s ∧
       ∃ out, stdout (m s).2 = stdout s ++ out ∧ Forall P out.

End Python.

(** ** [scripts/validate-setup.py]: the Structural Validator *)

Module ValidateSetup.
Import Python.

(** "Check if a file exists and report status" *)
Definition check_file_exists (file_path description : string) : M bool :=
  found <- exists_ (Path file_path) ;;
  if found then
    print ("✓ " +:+ description +:+ ": " +:+ file_path) ;;
    ret true
  else
    print ("✗ " +:+ description +:+ ": " +:+ file_path +:+ " (NOT FOUND)") ;;
    ret false.

(** "Check if a directory exists and report status" *)
Definition check_directory_exists (dir_path description : string) : M bool :=
  found <- exists_ (Path dir_path) ;;
  found_dir <- (if found then is_dir (Path dir_path) else ret false) ;;
  if found_dir then
    print ("✓ " +:+ description +:+ ": " +:+ dir_path) ;;
    ret true
  else
    print ("✗ " +:+ description +:+ ": " +:+ dir_path +:+ " (NOT FOUND)") ;;
    ret false.

Definition structure_checks : list (string * string) :=
  [ ("backend/src/main.py", "Backend main application");
    ("backend/src/config.py", "Backend configuration");
    ("backend/requirements.txt", "Backend dependencies");
    ("backend/alembic.ini", "Database migrations config");
    ("frontend/package.json", "Frontend dependencies");
    ("docker-compose.yml", "Docker composition");
    (".env.example", "Environment template") ].

Definition directory_checks : list (string * string) :=
  [ ("backend/src/api", "API routes directory");
    ("backend/src/models", "Database models directory");
    ("backend/src/services", "Business logic directory");
    ("backend/tests", "Backend tests directory");
    ("frontend/src", "Frontend source directory");
    ("backend/alembic/versions", "Migration versions") ].

(** [for path, description in checks:
       if not check(path, description): all_good = False] *)
Fixpoint for_checks (check : string → string → M bool)
    (checks : list (string * string)) (all_good : bool) : M bool :=
  match checks with
  | [] => ret all_good
  | (p, description) :: rest =>
      passed <- check p description ;;
      for_checks check rest (if negb passed then false else all_good)
  end.

(** Lines 68-80 of [main]: the guarded configuration test.  The value is
    [all_good] after it. *)
Definition configuration_test (all_good : bool) : M bool :=
  print (nl +:+ "3. Backend Configuration Test:") ;;
  try_except
    (sys_path_insert0 "backend" ;;
     get_settings <- from_import "src.config" "get_settings" ;;
     settings <- call get_settings ;;
     print "✓ Configuration loaded successfully" ;;
     name <- lift (app_name settings) ;;
     print ("✓ App name: " +:+ name) ;;
     ret all_good)
    [ (ImportError,
        λ e, print ("✗ Configuration import failed: " +:+ exn_str e) ;; ret false);
      (Exception,
        λ e, print ("✗ Configuration error: " +:+ exn_str e) ;; ret false) ].

(** Lines 31-80 of [main]: everything up to the summary.  The value is
    [all_good] as the summary reads it. *)
Definition main_checks : M bool :=
  print "PCM Photo Management System - Setup Validation" ;;
  print (str_mul "=" 50) ;;
  let all_good := true in
  print (nl +:+ "1. Project Structure:") ;;
  all_good <- for_checks check_file_exists structure_checks all_good ;;
  print (nl +:+ "2. Directory Structure:") ;;
  all_good <- for_checks check_directory_exists directory_checks all_good ;;
  configuration_test all_good.

Definition next_steps : list string :=
  [ nl +:+ "Next steps:";
    "1. Copy .env.example to .env and configure your settings";
    "2. Start services: docker-compose up -d";
    "3. Run database migrations: alembic upgrade head";
    "4. Access the application:";
    "   - Frontend: http://localhost:3000";
    "   - Backend API: http://localhost:8000/docs" ].

Definition success_message : string :=
  "✅ All validations passed! Setup is complete.".

Definition failure_message : string :=
  "❌ Some validations failed. Please check the issues above.".

(** Lines 82-96 of [main]: the summary and the status. *)
Definition main_summary (all_good : bool) : M Z :=
  print (nl +:+ str_mul "=" 50) ;;
  if all_good then
    print success_message ;;
    print_all next_steps ;;
    ret 0%Z
  else
    print failure_message ;;
    ret 1%Z.

(** "Main validation function" *)
Definition main : M Z :=
  all_good <- main_checks ;;
  main_summary all_good.

(** [if __name__ == "__main__": sys.exit(main())]: the value is the
    process's exit status.  The working directory is the one the
    script was started in. *)
Definition script : M Z := main.

(** *** The run as the spec sees it *)

(** The CheckResults of a group of checks, in declaration order. *)
Fixpoint run_all (check : string → string → M bool)
    (checks : list (string * string)) : M (list bool) :=
  match checks with
  | [] => ret []
  | (p, description) :: rest =>
      passed <- check p description ;;
      others <- run_all check rest ;;
      ret (passed :: others)
  end.

(** The same statements as [main_checks], keeping every CheckResult
    instead of folding them into [all_good]: seven file checks, six
    directory checks and the configuration test. *)
Definition check_results : M (list bool) :=
  print "PCM Photo Management System - Setup Validation" ;;
  print (str_mul "=" 50) ;;
  print (nl +:+ "1. Project Structure:") ;;
  files <- run_all check_file_exists structure_checks ;;
  print (nl +:+ "2. Directory Structure:") ;;
  directories <- run_all check_directory_exists directory_checks ;;
  configuration <- configuration_test true ;;
  ret (files ++ directories ++ [configuration]).

(** The lines only the summary prints. *)
Definition is_summary_line (l : string) : bool :=
  existsb (String.eqb l) (success_message :: failure_message :: next_steps).

(** The line an existence check prints. *)
Definition report_line (found : bool) (check : string * string) : string :=
  if found then "✓ " +:+ check.2 +:+ ": " +:+ check.1
  else "✗ " +:+ check.2 +:+ ": " +:+ check.1 +:+ " (NOT FOUND)".

(** Everything printed before the configuration test. *)
Definition existence_report (s : state) : list string :=
  [ "PCM Photo Management System - Setup Validation"; str_mul "=" 50;
    nl +:+ "1. Project Structure:" ] ++
  map (λ c, report_line (exists_at s c.1) c) structure_checks ++
  [ nl +:+ "2. Directory Structure:" ] ++
  map (λ c, report_line (dir_at s c.1) c) directory_checks.

(** The thirteen existence CheckResults, read off the file system. *)
Definition existence_results (s : state) : list bool :=
  map (λ c, exists_at s c.1) structure_checks ++
  map (λ c, dir_at s c.1) directory_checks.

(** The validator's two failure lines for the configuration test. *)
Definition failure_line (k : failure_kind) (e : exn) : string :=
  match k with
  | ImportFailure => "✗ Configuration import failed: " +:+ exn_str e
  | RuntimeFailure => "✗ Configuration error: " +:+ exn_str e
  end.

(** The kind the [except] clauses give an exception. *)
Definition kind_of_exception (e : exn) : failure_kind :=
  if isinstance e ImportError then ImportFailure else RuntimeFailure.

(** The directories searched by the import of line 71, after line 70. *)
Definition config_dirs (s : state) : list path :=
  resolve (cwd s) (Path "backend") :: search_dirs s.

(** What the configuration test prints, by what the probe does. *)
Definition configuration_report (probe : probe_outcome) : list string :=
  (nl +:+ "3. Backend Configuration Test:") ::
  match probe with
  | Loaded name => ["✓ Configuration loaded successfully"; "✓ App name: " +:+ name]
  | Failed ph e =>
      match ph with Reading => ["✓ Configuration loaded successfully"] | _ => [] end ++
      (if isinstance e Exception then [failure_line (kind_of_exception e) e] else [])
  end.

(** What the summary prints. *)
Definition summary_report (all_good : bool) : list string :=
  (nl +:+ str_mul "=" 50) ::
  (if all_good then success_message :: next_steps else [failure_message]).

(** The state the validator leaves: ["backend"] on [sys.path], the
    import of [src.config] attempted, [lines] printed. *)
Definition validated (lines : list string) (s : state) : state :=
  State (fs s) (loader s) (cwd s) ("backend" :: sys_path s)
        (stdout s ++ lines) (import_log s ++ ["src.config"]).

(** No line of a check is a line of the summary. *)
Definition check_line (l : string) : Prop := is_summary_line l = false.

End ValidateSetup.

(** ** [scripts/test-startup.py]: the Startup Prober *)

Module TestStartup.
Import Python.

(** "Test if we can import the basic modules" *)
Definition test_basic_imports : M bool :=
  print "測試基本模組導入..." ;;
  try_except
    (get_settings <- from_import "src.config" "get_settings" ;;
     print "✓ Config 模組導入成功" ;;
     settings <- call get_settings ;;
     name <- lift (app_name settings) ;;
     print ("✓ 應用程式名稱: " +:+ name) ;;
     ret true)
    [ (Exception, λ e, print ("✗ 配置導入失敗: " +:+ exn_str e) ;; ret false) ].

(** "Test if API structure is ready" *)
Definition test_api_structure : M bool :=
  print (nl +:+ "測試 API 結構...") ;;
  try_except
    (health_router <- from_import "src.api.v1.health" "router" ;;
     print "✓ Health API 路由已準備" ;;
     photos_router <- from_import "src.api.v1.photos" "router" ;;
     print "✓ Photos API 路由已準備" ;;
     albums_router <- from_import "src.api.v1.albums" "router" ;;
     print "✓ Albums API 路由已準備" ;;
     ret true)
    [ (Exception, λ e, print ("✗ API 結構測試失敗: " +:+ exn_str e) ;; ret false) ].

Definition available_endpoints : list string :=
  [ nl +:+ "🌐 目前可用的端點 (需要啟動服務):";
    str_mul "━" 50;
    "Backend API (http://localhost:8000):";
    "  📋 根端點: GET /";
    "  📋 API 文件: GET /docs";
    "  📋 健康檢查: GET /api/v1/health/";
    "  📋 存活檢查: GET /api/v1/health/live";
    "  📋 準備檢查: GET /api/v1/health/ready";
    "";
    "照片管理端點 (未連接資料庫會顯示錯誤):";
    "  📸 照片列表: GET /api/v1/photos";
    "  📸 上傳照片: POST /api/v1/photos";
    "  📁 相簿管理: GET /api/v1/albums";
    "  🔍 搜尋照片: GET /api/v1/search/photos";
    "";
    "Frontend (http://localhost:3000):";
    "  🎨 Next.js 應用程式 (需要 npm start)";
    "";
    "監控服務:";
    "  🌸 Flower (Celery): http://localhost:5555" ].

Definition startup_commands : list string :=
  [ nl +:+ "🚀 啟動命令:";
    str_mul "━" 50;
    "1. 使用 Docker (推薦):";
    "   docker-compose up -d";
    "";
    "2. 手動啟動 Backend:";
    "   cd backend";
    "   pip install -r requirements.txt";
    "   python src/main.py";
    "";
    "3. 手動啟動 Frontend:";
    "   cd frontend";
    "   npm install";
    "   npm run dev";
    "";
    "⚠️  注意: 需要先設定資料庫和 Redis 才能完全運作" ].

(** "Show what endpoints would be available" *)
Definition show_available_endpoints : M unit := print_all available_endpoints.

(** "Show commands to start the services" *)
Definition show_startup_commands : M unit := print_all startup_commands.

Definition success_banner : string := nl +:+ "✅ 基礎架構準備完成！".

Definition failure_banner : string := nl +:+ "❌ 基礎架構還有問題需要修復".

Definition hint_line : string :=
  nl +:+ "💡 提示: 即使沒有資料庫，你也可以啟動服務查看 API 文件".

(** Lines 97-103 of [main]: the two branches on the verdict. *)
Definition main_summary (verdict : bool) : M unit :=
  if verdict then
    print success_banner ;;
    show_available_endpoints ;;
    show_startup_commands ;;
    print hint_line
  else
    print failure_banner.

Definition main : M unit :=
  print "PCM 照片管理系統 - 啟動測試" ;;
  print (str_mul "=" 50) ;;
  imports_ok <- test_basic_imports ;;
  api_ok <- test_api_structure ;;
  main_summary (imports_ok && api_ok).

(** The script as the interpreter runs it: line 12 at module level, then
    the [__main__] block.  [file] is [__file__], the script's path. *)
Definition script (file : string) : M unit :=
  sys_path_insert0 "backend" ;;
  chdir (parent (parent (Path file))) ;;
  main.

(** *** The run as the spec sees it *)

(** The two CheckResults of a run: the configuration probe and the
    API-structure probe. *)
Definition check_results : M (list bool) :=
  print "PCM 照片管理系統 - 啟動測試" ;;
  print (str_mul "=" 50) ;;
  imports_ok <- test_basic_imports ;;
  api_ok <- test_api_structure ;;
  ret [imports_ok; api_ok].

(** The capability report: the endpoint list and the startup commands. *)
Definition capability_report : list string :=
  available_endpoints ++ startup_commands.

(** The route modules in the order of their imports, each with the
    line printed once it has imported. *)
Definition routes : list (string * string) :=
  [ ("src.api.v1.health", "✓ Health API 路由已準備");
    ("src.api.v1.photos", "✓ Photos API 路由已準備");
    ("src.api.v1.albums", "✓ Albums API 路由已準備") ].

(** A run of imports inside one [try]: the modules whose import was
    attempted, the lines of those that imported, and the exception that
    ended the run, if any. *)
Record trace := Trace {
  attempted : list string;
  ready : list string;
  failure : option exn;
}.

(** Import one module after the other and stop at the first that raises. *)
Fixpoint import_routes (imp : string → result pyobj)
    (modules : list (string * string)) : trace :=
  match modules with
  | [] => Trace [] [] None
  | (name, line) :: rest =>
      match imp name with
      | Raises e => Trace [name] [] (Some e)
      | Returns _ =>
          let t := import_routes imp rest in
          Trace (name :: attempted t) (line :: ready t) (failure t)
      end
  end.

(** What [test_api_structure] evaluates to, and what it prints. *)
Definition api_result (t : trace) : result bool :=
  match failure t with
  | None => Returns true
  | Some e => if isinstance e Exception then Returns false else Raises e
  end.

Definition api_report (t : trace) : list string :=
  (nl +:+ "測試 API 結構...") :: ready t ++
  match failure t with
  | None => []
  | Some e => if isinstance e Exception then ["✗ API 結構測試失敗: " +:+ exn_str e] else []
  end.

(** What [test_basic_imports] prints, by what the probe does. *)
Definition configuration_report (probe : probe_outcome) : list string :=
  "測試基本模組導入..." ::
  match probe with
  | Loaded name => ["✓ Config 模組導入成功"; "✓ 應用程式名稱: " +:+ name]
  | Failed ph e =>
      match ph with Importing => [] | _ => ["✓ Config 模組導入成功"] end ++
      (if isinstance e Exception then ["✗ 配置導入失敗: " +:+ exn_str e] else [])
  end.

(** What the summary prints. *)
Definition summary_report (verdict : bool) : list string :=
  if verdict then success_banner :: capability_report ++ [hint_line]
  else [failure_banner].

Definition heading : list string :=
  [ "PCM 照片管理系統 - 啟動測試"; str_mul "=" 50 ].

(** The lines only the summary prints. *)
Definition is_summary_line (l : string) : bool :=
  existsb (String.eqb l)
    (success_banner :: failure_banner :: hint_line :: capability_report).

(** The configuration probe and the three route imports all succeed. *)
Definition probes_succeed (s : state) : Prop :=
  (∃ name, probe_configuration (loader s) (search_dirs s) = Loaded name) ∧
  ∀ m, m ∈ routes.*1 → ∃ o, import_router s m = Returns o.

(** No line of a check is a line of the summary. *)
Definition check_line (l : string) : Prop := is_summary_line l = false.

End TestStartup.


(** ** Concrete projects and processes *)

Module Examples.
Import Python.

(** The project is checked out at [/home/dev/pcm]. *)
Definition project_root : path := ["home"; "dev"; "pcm"].

Definition dirs_of (paths : list path) : list (path * node) :=
  map (λ p, (p, Dir)) paths.

Definition files_of (paths : list path) : list (path * node) :=
  map (λ p, (p, File)) paths.

Definition below (root : path) (entries : list (path * node)) : list (path * node) :=
  map (λ e, (root ++ e.1, e.2)) entries.

(** Everything the validator looks for, and the directories above it. *)
Definition complete_layout : list (path * node) :=
  dirs_of [ []; ["scripts"]; ["backend"]; ["backend"; "src"]; ["frontend"];
            ["backend"; "alembic"];
            ["backend"; "src"; "api"]; ["backend"; "src"; "models"];
            ["backend"; "src"; "services"]; ["backend"; "tests"];
            ["frontend"; "src"]; ["backend"; "alembic"; "versions"] ] ++
  files_of [ ["scripts"; "validate-setup.py"]; ["scripts"; "test-startup.py"];
             ["backend"; "src"; "main.py"]; ["backend"; "src"; "config.py"];
             ["backend"; "requirements.txt"]; ["backend"; "alembic.ini"];
             ["frontend"; "package.json"]; ["docker-compose.yml"];
             [".env.example"] ].

Definition complete_tree : gmap path node :=
  list_to_map (dirs_of [ []; ["home"]; ["home"; "dev"] ] ++
               below project_root complete_layout).

(** A module that binds one name. *)
Definition module_with (member : string) (o : pyobj) : module :=
  Module_ (λ n, if String.eqb n member then Some o else None).

Definition missing (name : string) : result module :=
  Raises (Exn ModuleNotFoundError ("No module named '" +:+ name +:+ "'")).

(** A backend whose modules all load: [get_settings()] returns
    settings named ["PCM"]. *)
Definition sound_backend (name : string) : result module :=
  if String.eqb name "src.config" then
    Returns (module_with "get_settings" (Callable (Returns (Settings (Returns "PCM")))))
  else if String.eqb name "src.api.v1.health" || String.eqb name "src.api.v1.photos"
          || String.eqb name "src.api.v1.albums" then
    Returns (module_with "router" Object)
  else missing name.

(** The modules of [backend] are found when the project's [backend]
    directory is on the resolved [sys.path], and not otherwise. *)
Definition loader_of (backend : string → result module) : list path → string → result module :=
  λ dirs name,
    if bool_decide (project_root ++ ["backend"] ∈ dirs) then backend name
    else missing name.

(** A fresh process: nothing printed, nothing imported, [sys.path]
    holding the directory of the script. *)
Definition process (tree : gmap path node) (backend : string → result module)
    (wd : path) : state :=
  State tree (loader_of backend) wd ["/home/dev/pcm/scripts"] [] [].

(** The complete project, started in the project root. *)
Definition ready : state := process complete_tree sound_backend project_root.

(** The complete project, started in [scripts/]. *)
Definition started_in_scripts : state :=
  process complete_tree sound_backend (project_root ++ ["scripts"]).

(** [backend/src/main.py] is a directory. *)
Definition main_py_is_directory : state :=
  process (<[project_root ++ ["backend"; "src"; "main.py"] := Dir]> complete_tree)
          sound_backend project_root.

(** [backend/requirements.txt] is absent. *)
Definition no_requirements : state :=
  process (delete (project_root ++ ["backend"; "requirements.txt"]) complete_tree)
          sound_backend project_root.

(** [src.config] imports, but [get_settings()] imports a package that
    is not installed. *)
Definition lazy_import_backend (name : string) : result module :=
  if String.eqb name "src.config" then
    Returns (module_with "get_settings"
      (Callable (Raises (Exn ModuleNotFoundError "No module named 'pydantic_settings'"))))
  else sound_backend name.

Definition lazy_import : state := process complete_tree lazy_import_backend project_root.

(** [src/config.py] does not parse. *)
Definition syntax_error_backend (name : string) : result module :=
  if String.eqb name "src.config" then
    Raises (Exn SyntaxError "invalid syntax (config.py, line 3)")
  else sound_backend name.

Definition syntax_error : state := process complete_tree syntax_error_backend project_root.



(** The health routes do not import; the other modules do. *)
Definition health_broken_backend (name : string) : result module :=
  if String.eqb name "src.api.v1.health" then
    Raises (Exn ImportError "cannot import name 'text' from 'sqlalchemy'")
  else sound_backend name.

Definition health_broken : state := process complete_tree health_broken_backend project_root.

(** The photo routes do not import; the other modules do. *)
Definition photos_broken_backend (name : string) : result module :=
  if String.eqb name "src.api.v1.photos" then
    Raises (Exn ValueError "duplicate route /api/v1/photos")
  else sound_backend name.

Definition photos_broken : state := process complete_tree photos_broken_backend project_root.

(** The settings object has no [app_name]. *)
Definition no_app_name_backend (name : string) : result module :=
  if String.eqb name "src.config" then
    Returns (module_with "get_settings"
      (Callable (Returns (Settings
        (Raises (Exn AttributeError "'Settings' object has no attribute 'app_name'"))))))
  else sound_backend name.

Definition no_app_name : state := process complete_tree no_app_name_backend project_root.

(** The process once line 12 of [test-startup.py] has run: where
    [main] starts when the script is started in the project root. *)
Definition probing (s : state) : state := with_sys_path "backend" s.

End Examples.
(** * Properties *)

(** ** What a computation may touch

    Neither script writes to disk, replaces the module loader or (inside
    [main]) changes the working directory; all they leave behind is text
    on standard output, entries in [sys.path] and imported modules. *)

Module Frame.
Import Python.

(** *** The monad laws, from every state *)

#[export] Instance eqM_equivalence {A} : Equivalence (@eqM A).
Proof.
  split.
  - by intros m s.
  - by intros m m' H s.
  - intros m1 m2 m3 H12 H23 s. by rewrite H12.
Qed.

#[export] Instance bind_proper {A B} :
  Proper (eqM ==> pointwise_relation A eqM ==> eqM) (@bind A B).
Proof.
  intros m m' Hm k k' Hk s. unfold bind. rewrite Hm.
  destruct (m' s) as [[a | e] s1]; [apply Hk | done].
Qed.

Lemma bind_assoc {A B C} (m : M A) (k : A → M B) (h : B → M C) :
  eqM (bind (bind m k) h) (bind m (λ a, bind (k a) h)).
Proof. intros s. unfold bind. by destruct (m s) as [[a | e] s1]. Qed.

Lemma bind_ret_l {A B} (a : A) (k : A → M B) : eqM (bind (ret a) k) (k a).
Proof. by intros s. Qed.

Lemma bind_ret_r {A} (m : M A) : eqM (bind m ret) m.
Proof. intros s. unfold bind, ret. by destruct (m s) as [[a | e] s1]. Qed.

Lemma bind_head {A B} (m m' : M A) (k : A → M B) :
  eqM m m' → eqM (bind m k) (bind m' k).
Proof. intros H. by apply bind_proper. Qed.

(** Steps for proofs of [eqM m m']: reassociate one side, replace the
    head of the left side, or peel a common head. *)
Ltac assoc_left := etrans; [apply bind_assoc |].
Ltac assoc_right := etrans; [| symmetry; apply bind_assoc].
Ltac ret_left := etrans; [apply bind_ret_l |].
Ltac ret_right := etrans; [| symmetry; apply bind_ret_l].
Ltac head_left H := etrans; [apply bind_head, H |].
Ltac same_head := apply bind_proper; [reflexivity | intros ?].

(** *** What each statement keeps *)

Lemma quiet_ret {A} P (a : A) : quiet P (ret a).
Proof. intros s. repeat split. exists []. by rewrite app_nil_r. Qed.

Lemma quiet_lift {A} P (r : result A) : quiet P (lift r).
Proof. intros s. repeat split. exists []. by rewrite app_nil_r. Qed.

Lemma quiet_raise {A} P e : quiet P (@raise A e).
Proof. intros s. repeat split. exists []. by rewrite app_nil_r. Qed.

Lemma quiet_print P line : P line → quiet P (print line).
Proof. intros HP s. repeat split. exists [line]. split; [done | by constructor]. Qed.

Lemma quiet_bind {A B} P (m : M A) (k : A → M B) :
  quiet P m → (∀ a, quiet P (k a)) → quiet P (bind m k).
Proof.
  intros Hm Hk s. unfold bind.
  destruct (Hm s) as (Hfs & Hld & Hwd & out & Hout & HP).
  destruct (m s) as [[a | e] s1]; simpl in *.
  - destruct (Hk a s1) as (Hfs' & Hld' & Hwd' & out' & Hout' & HP').
    repeat split; try congruence.
    exists (out ++ out'). split.
    + by rewrite Hout', Hout, app_assoc.
    + by apply Forall_app.
  - repeat split; try done. by exists out.
Qed.

Lemma quiet_dispatch {A} P (handlers : list (pyclass * (exn → M A))) e :
  Forall (λ ch, ∀ e', quiet P (ch.2 e')) handlers → quiet P (dispatch handlers e).
Proof.
  induction 1 as [| [c h] rest Hh _ IH]; simpl.
  - apply quiet_raise.
  - destruct (isinstance e c); [apply Hh | apply IH].
Qed.

Lemma quiet_try_except {A} P (body : M A) handlers :
  quiet P body → Forall (λ ch, ∀ e, quiet P (ch.2 e)) handlers →
  quiet P (try_except body handlers).
Proof.
  intros Hb Hh s. unfold try_except.
  destruct (Hb s) as (Hfs & Hld & Hwd & out & Hout & HP).
  destruct (body s) as [[a | e] s1]; simpl in *.
  - repeat split; try done. by exists out.
  - destruct (quiet_dispatch P handlers e Hh s1) as (Hfs' & Hld' & Hwd' & out' & Hout' & HP').
    repeat split; try congruence.
    exists (out ++ out'). split.
    + by rewrite Hout', Hout, app_assoc.
    + by apply Forall_app.
Qed.

Lemma quiet_stat P p : quiet P (stat p).
Proof. intros s. repeat split. exists []. by rewrite app_nil_r. Qed.

Lemma quiet_exists P p : quiet P (exists_ p).
Proof. apply quiet_bind; [apply quiet_stat | intros; apply quiet_ret]. Qed.

Lemma quiet_is_dir P p : quiet P (is_dir p).
Proof. apply quiet_bind; [apply quiet_stat | intros; apply quiet_ret]. Qed.

Lemma quiet_sys_path_insert0 P entry : quiet P (sys_path_insert0 entry).
Proof. intros s. repeat split. exists []. by rewrite app_nil_r. Qed.

Lemma quiet_from_import P name member : quiet P (from_import name member).
Proof.
  intros s. repeat split. exists []. simpl. by rewrite app_nil_r.
Qed.

Lemma quiet_call P f : quiet P (call f).
Proof. destruct f; [apply quiet_lift | apply quiet_raise]. Qed.

(** *** Running statements one by one *)

Lemma with_output_nil s : with_output [] s = s.
Proof. destruct s. unfold with_output. simpl. by rewrite app_nil_r. Qed.

Lemma with_output_app l1 l2 s :
  with_output l2 (with_output l1 s) = with_output (l1 ++ l2) s.
Proof. unfold with_output. simpl. by rewrite app_assoc. Qed.

Lemma bind_print {B} line (k : unit → M B) s :
  bind (print line) k s = k tt (with_output [line] s).
Proof. reflexivity. Qed.

Lemma bind_from_import {B} name member (k : pyobj → M B) s :
  bind (from_import name member) k s
  = match import_member s name member with
    | Returns o => k o (with_import name s)
    | Raises e => (Raises e, with_import name s)
    end.
Proof. reflexivity. Qed.

Lemma bind_sys_path_insert0 {B} entry (k : unit → M B) s :
  bind (sys_path_insert0 entry) k s = k tt (with_sys_path entry s).
Proof. reflexivity. Qed.

Lemma bind_call {B} f (k : settings → M B) s :
  bind (call f) k s
  = match f with
    | Callable (Returns st) => k st s
    | Callable (Raises e) => (Raises e, s)
    | Object => (Raises (Exn TypeError "object is not callable"), s)
    end.
Proof. by destruct f as [[st | e] |]. Qed.

Lemma bind_lift {A B} (r : result A) (k : A → M B) s :
  bind (lift r) k s
  = match r with
    | Returns a => k a s
    | Raises e => (Raises e, s)
    end.
Proof. by destruct r. Qed.

(** Printing and importing do not change what an import finds. *)
Lemma import_member_with_output lines s name member :
  import_member (with_output lines s) name member = import_member s name member.
Proof. reflexivity. Qed.

Lemma import_member_with_import n s name member :
  import_member (with_import n s) name member = import_member s name member.
Proof. reflexivity. Qed.

Lemma bind_returns {A B} (m : M A) (k : A → M B) s a s' :
  m s = (Returns a, s') → bind m k s = k a s'.
Proof. intros H. unfold bind. by rewrite H. Qed.

(** The class tests the [except] clauses make. *)
Lemma ImportError_is_Exception e :
  isinstance e ImportError = true → isinstance e Exception = true.
Proof. destruct e as [[] str]; by vm_compute. Qed.

Lemma output_of_app {A} (m : M A) s out :
  stdout (m s).2 = stdout s ++ out → output_of m s = out.
Proof. intros H. unfold output_of. by rewrite H, drop_app_length. Qed.

Lemma print_all_run lines s : print_all lines s = (Returns tt, with_output lines s).
Proof.
  revert s. induction lines as [| l rest IH]; intros s; simpl.
  - unfold ret. by rewrite with_output_nil.
  - rewrite bind_print, IH, with_output_app. done.
Qed.

Lemma output_of_after {A} (m : M A) s r lines names :
  m s = (r, after lines names s) → output_of m s = lines.
Proof. intros H. apply output_of_app. by rewrite H. Qed.

Ltac import_frame :=
  repeat first [rewrite import_member_with_output | rewrite import_member_with_import].

(** Two descriptions of one state, up to the bracketing of what was
    appended. *)
Ltac same_state :=
  unfold bind, print, ret, raise, lift,
    with_output, with_import, with_sys_path, with_cwd, after; simpl;
  rewrite <- ?app_assoc, ?app_nil_r; try done.

End Frame.

(** ** The Structural Validator *)

Module Validator.
Import Python Frame ValidateSetup.

(** *** The checks one by one *)

Lemma check_file_exists_run p d s :
  check_file_exists p d s
  = (Returns (exists_at s p), with_output [report_line (exists_at s p) (p, d)] s).
Proof.
  unfold check_file_exists, exists_at, exists_, stat, bind, ret, print; simpl.
  by destruct (bool_decide _).
Qed.

Lemma check_directory_exists_run p d s :
  check_directory_exists p d s
  = (Returns (dir_at s p), with_output [report_line (dir_at s p) (p, d)] s).
Proof.
  unfold check_directory_exists, dir_at, exists_, is_dir, stat, bind, ret, print; simpl.
  destruct (fs s !! resolve (cwd s) (Path p)) as [[] |] eqn:E; simpl; by rewrite ?E.
Qed.

(** A group of existence checks runs every check of the group: one
    CheckResult and one line each, whatever the others found. *)
Lemma run_all_existence (check : string → string → M bool) (at_ : state → string → bool) :
  (∀ lines s p, at_ (with_output lines s) p = at_ s p) →
  (∀ p d s, check p d s = (Returns (at_ s p), with_output [report_line (at_ s p) (p, d)] s)) →
  ∀ checks s,
    run_all check checks s
    = (Returns (map (λ c, at_ s c.1) checks),
       with_output (map (λ c, report_line (at_ s c.1) c) checks) s).
Proof.
  intros Hframe Hcheck checks. induction checks as [| [p d] rest IH]; intros s; simpl.
  - unfold ret. by rewrite with_output_nil.
  - unfold bind, ret. rewrite Hcheck, IH. simpl.
    rewrite with_output_app. simpl.
    f_equal; [f_equal; f_equal | f_equal; f_equal];
      apply map_ext; intros c; by rewrite Hframe.
Qed.

(** The configuration test, by what the probe does. *)
Lemma configuration_test_run all_good s :
  let probe := probe_configuration (loader s) (config_dirs s) in
  configuration_test all_good s
  = (probe_result probe all_good, validated (configuration_report probe) s).
Proof.
  cbv zeta. unfold configuration_test, try_except, probe_configuration.
  rewrite bind_print, bind_sys_path_insert0, bind_from_import.
  change (import_member _ "src.config" "get_settings")
    with (member_of (loader s (config_dirs s) "src.config") "src.config" "get_settings").
  unfold validated, configuration_report, kind_of_exception.
  destruct (member_of _ _ _) as [[[st | e] |] | e]; simpl;
    [ unfold bind, print, lift, ret; simpl;
      destruct (app_name st) as [name | e]; simpl | | | ];
    try (by same_state);
    pose proof (ImportError_is_Exception e) as Hie;
    (destruct (isinstance e ImportError); simpl;
     [rewrite Hie by done | destruct (isinstance e Exception)]);
    by same_state.
Qed.

(** All fourteen checks run: the thirteen existence checks give their
    results whatever the others found, and then the configuration test
    runs, whatever they found. *)
Lemma check_results_run s :
  check_results s
  = (passed <- configuration_test true ;; ret (existence_results s ++ [passed]))
      (with_output (existence_report s) s).
Proof.
  unfold check_results. rewrite !bind_print.
  erewrite bind_returns;
    [| by apply (run_all_existence check_file_exists exists_at), check_file_exists_run].
  rewrite bind_print.
  erewrite bind_returns;
    [| by apply (run_all_existence check_directory_exists dir_at), check_directory_exists_run].
  rewrite !with_output_app.
  unfold bind, ret, existence_results, existence_report.
  destruct (configuration_test true _) as [[passed | e] s1]; [| done].
  by rewrite app_assoc.
Qed.

(** *** The verdict *)

(** The loop over a group computes the conjunction of the group's
    CheckResults with the value [all_good] had before. *)
Lemma for_checks_run_all check checks all_good :
  eqM (for_checks check checks all_good)
      (rs <- run_all check checks ;; ret (all_good && forallb id rs)).
Proof.
  revert all_good. induction checks as [| [p d] rest IH]; intros all_good; simpl.
  - rewrite bind_ret_l. by rewrite andb_true_r.
  - rewrite bind_assoc. f_equiv. intros passed.
    rewrite IH, bind_assoc. f_equiv. intros rs.
    rewrite bind_ret_l. simpl. by destruct passed, all_good.
Qed.

(** The configuration test only ever lowers [all_good]. *)
Lemma configuration_test_and all_good :
  eqM (configuration_test all_good)
      (passed <- configuration_test true ;; ret (all_good && passed)).
Proof.
  intros s. unfold bind. rewrite !configuration_test_run.
  destruct (probe_configuration _ _) as [name | ph e]; simpl.
  - unfold ret. by rewrite andb_true_r.
  - destruct (isinstance e Exception); [| done].
    unfold ret. by rewrite andb_false_r.
Qed.

(** [all_good], as the summary reads it, is the conjunction of the
    fourteen CheckResults. *)
Lemma main_checks_results :
  eqM main_checks (rs <- check_results ;; ret (forallb id rs)).
Proof.
  unfold main_checks, check_results. cbv zeta.
  do 3 (assoc_right; same_head).
  assoc_right. head_left for_checks_run_all. assoc_left. same_head. ret_left.
  assoc_right; same_head.
  assoc_right. head_left for_checks_run_all. assoc_left. same_head. ret_left.
  assoc_right. etrans; [apply configuration_test_and |]. same_head.
  ret_right. intros s. unfold ret. do 2 f_equal.
  rewrite !forallb_app. simpl. by rewrite andb_true_r, andb_assoc.
Qed.

Lemma tick_is_check_line rest : check_line ("✓ " +:+ rest).
Proof. reflexivity. Qed.

Lemma cross_is_check_line rest : check_line ("✗ " +:+ rest).
Proof. reflexivity. Qed.

Lemma quiet_check_file_exists p d : quiet check_line (check_file_exists p d).
Proof.
  apply quiet_bind; [apply quiet_exists |]. intros [].
  - apply quiet_bind; [apply quiet_print, tick_is_check_line | intros; apply quiet_ret].
  - apply quiet_bind; [apply quiet_print, cross_is_check_line | intros; apply quiet_ret].
Qed.

Lemma quiet_check_directory_exists p d : quiet check_line (check_directory_exists p d).
Proof.
  apply quiet_bind; [apply quiet_exists |]. intros found.
  apply quiet_bind; [destruct found; [apply quiet_is_dir | apply quiet_ret] |].
  intros [].
  - apply quiet_bind; [apply quiet_print, tick_is_check_line | intros; apply quiet_ret].
  - apply quiet_bind; [apply quiet_print, cross_is_check_line | intros; apply quiet_ret].
Qed.

Lemma quiet_run_all P check checks :
  (∀ p d, quiet P (check p d)) → quiet P (run_all check checks).
Proof.
  intros Hc. induction checks as [| [p d] rest IH]; simpl.
  - apply quiet_ret.
  - apply quiet_bind; [apply Hc |]. intros passed.
    apply quiet_bind; [apply IH |]. intros; apply quiet_ret.
Qed.

Lemma quiet_configuration_test all_good : quiet check_line (configuration_test all_good).
Proof.
  apply quiet_bind; [by apply quiet_print |]. intros _.
  apply quiet_try_except.
  - apply quiet_bind; [apply quiet_sys_path_insert0 |]. intros _.
    apply quiet_bind; [apply quiet_from_import |]. intros f.
    apply quiet_bind; [apply quiet_call |]. intros st.
    apply quiet_bind; [by apply quiet_print |]. intros _.
    apply quiet_bind; [apply quiet_lift |]. intros name.
    apply quiet_bind; [apply quiet_print, tick_is_check_line | intros; apply quiet_ret].
  - constructor; [| constructor; [| constructor]]; intros e; simpl;
      (apply quiet_bind; [apply quiet_print, cross_is_check_line | intros; apply quiet_ret]).
Qed.

Lemma quiet_check_results : quiet check_line check_results.
Proof.
  do 3 (apply quiet_bind; [by apply quiet_print |]; intros _).
  apply quiet_bind; [apply quiet_run_all, quiet_check_file_exists |]. intros files.
  apply quiet_bind; [by apply quiet_print |]. intros _.
  apply quiet_bind; [apply quiet_run_all, quiet_check_directory_exists |]. intros dirs.
  apply quiet_bind; [apply quiet_configuration_test |]. intros; apply quiet_ret.
Qed.

Lemma main_results : eqM main (rs <- check_results ;; main_summary (forallb id rs)).
Proof.
  unfold main. head_left main_checks_results. assoc_left. same_head. by ret_left.
Qed.

Lemma main_summary_run all_good s :
  main_summary all_good s
  = (Returns (if all_good then 0 else 1)%Z, with_output (summary_report all_good) s).
Proof.
  unfold main_summary, summary_report. rewrite bind_print.
  destruct all_good.
  - rewrite bind_print. unfold bind. rewrite print_all_run. by same_state.
  - rewrite bind_print. by same_state.
Qed.

(** The whole run of [main], read off the file system and the probe. *)
Lemma main_run s :
  let probe := probe_configuration (loader s) (config_dirs s) in
  main s
  = match probe_result probe true with
    | Returns passed =>
        let all_good := forallb id (existence_results s ++ [passed]) in
        (Returns (if all_good then 0 else 1)%Z,
         validated (existence_report s ++ configuration_report probe ++
                    summary_report all_good) s)
    | Raises e =>
        (Raises e, validated (existence_report s ++ configuration_report probe) s)
    end.
Proof.
  cbv zeta. rewrite main_results. unfold bind at 1. rewrite check_results_run.
  unfold bind at 1. rewrite configuration_test_run.
  change (loader (with_output (existence_report s) s)) with (loader s).
  change (config_dirs (with_output (existence_report s) s)) with (config_dirs s).
  destruct (probe_result _ true) as [passed | e]; unfold ret.
  - rewrite main_summary_run. unfold validated. by same_state.
  - unfold validated. by same_state.
Qed.

Lemma success_lines_are_summary_lines l :
  l ∈ success_message :: next_steps → is_summary_line l = true.
Proof.
  intros H. repeat (apply elem_of_cons in H as [-> | H]; [reflexivity |]).
  by apply elem_of_nil in H.
Qed.

Lemma failure_is_no_success_line :
  failure_message ∉ success_message :: next_steps.
Proof.
  intros H.
  repeat (apply elem_of_cons in H as [H | H]; [vm_compute in H; discriminate |]).
  by apply elem_of_nil in H.
Qed.

(** C2. The entry point returns 0 when every check passed and 1 when at
    least one check failed; the success message and the numbered next
    steps are printed in the all-passed case and in no other. *)
Theorem main_status_and_next_steps s rs s1 :
  check_results s = (Returns rs, s1) →
  ∃ s2, main s = (Returns (if forallb id rs then 0 else 1)%Z, s2) ∧
        stdout s2 = stdout s1 ++ (nl +:+ str_mul "=" 50) ::
                      (if forallb id rs then success_message :: next_steps
                       else [failure_message]) ∧
        ∀ l, l ∈ success_message :: next_steps →
             (l ∈ output_of main s ↔ forallb id rs = true).
Proof.
  intros Hrs.
  pose proof (main_results s) as Hmain. unfold bind in Hmain. rewrite Hrs in Hmain.
  destruct (quiet_check_results s) as (_ & _ & _ & out & Hout & Hlines).
  rewrite Hrs in Hout. simpl in Hout.
  assert (Hsum : ∀ v, stdout (main_summary v s1).2
            = stdout s1 ++ (nl +:+ str_mul "=" 50) ::
                (if v then success_message :: next_steps else [failure_message])).
  { intros v. by rewrite main_summary_run. }
  assert (Hret : ∀ v, (main_summary v s1).1 = Returns (if v then 0 else 1)%Z).
  { intros v. by rewrite main_summary_run. }
  exists (main_summary (forallb id rs) s1).2.
  split; [| split].
  - rewrite Hmain, <- Hret. by destruct (main_summary _ s1).
  - apply Hsum.
  - intros l Hl. unfold output_of. rewrite Hmain, Hsum, Hout, <- app_assoc, drop_app_length.
    pose proof (success_lines_are_summary_lines l Hl) as Hsl.
    rewrite elem_of_app, elem_of_cons. split.
    + intros [Hin | [Heq | Hin]].
      * rewrite Forall_forall in Hlines. specialize (Hlines l Hin).
        unfold check_line in Hlines. congruence.
      * subst l. vm_compute in Hsl. discriminate.
      * destruct (forallb id rs); [done |].
        apply list_elem_of_singleton in Hin. subst l.
        by apply failure_is_no_success_line in Hl.
    + intros ->. by right; right.
Qed.

Lemma main_status_and_next_steps_witness :
  check_results Examples.ready
    = (Returns (replicate 14 true), (check_results Examples.ready).2) ∧
  ∃ s2, main Examples.ready = (Returns 0%Z, s2) ∧
        stdout s2 = stdout (check_results Examples.ready).2 ++
                      (nl +:+ str_mul "=" 50) :: success_message :: next_steps ∧
        ∀ l, l ∈ success_message :: next_steps →
             (l ∈ output_of main Examples.ready ↔ forallb id (replicate 14 true) = true).
Proof.
  split; [by vm_compute |].
  apply (main_status_and_next_steps Examples.ready (replicate 14 true)
           (check_results Examples.ready).2).
  by vm_compute.
Defined.

(** *** Kinds of paths *)

(** C4. A check declared for a directory passes only when a directory
    is at the path, but a check declared for a file passes whenever
    anything is at the path: with a directory at [backend/src/main.py]
    the file check passes, and the whole validation with it. *)
Theorem check_file_exists_accepts_directory :
  let s := Examples.main_py_is_directory in
  fs s !! resolve (cwd s) (Path "backend/src/main.py") = Some Dir ∧
  file_at s "backend/src/main.py" = false ∧
  (check_file_exists "backend/src/main.py" "Backend main application" s).1
    = Returns true ∧
  output_of (check_file_exists "backend/src/main.py" "Backend main application") s
    = ["✓ Backend main application: backend/src/main.py"] ∧
  (main s).1 = Returns 0%Z.
Proof. by vm_compute. Qed.

(** What the two checks test, for every path and file system. *)
Lemma existence_checks_test p d s :
  (check_file_exists p d s).1 = Returns (exists_at s p) ∧
  (check_directory_exists p d s).1 = Returns (dir_at s p).
Proof. by rewrite check_file_exists_run, check_directory_exists_run. Qed.



(** *** What a run leaves behind *)

(** [main] returns unless the probe raises something that is no
    [Exception], and then that propagates. *)
Lemma main_returns_or_propagates s :
  (main s).1
  = match probe_configuration (loader s) (config_dirs s) with
    | Loaded _ => Returns (if forallb id (existence_results s) then 0 else 1)%Z
    | Failed _ e => if isinstance e Exception then Returns 1%Z else Raises e
    end.
Proof.
  rewrite main_run.
  destruct (probe_configuration _ _) as [name | ph e]; cbn [probe_result].
  - cbv zeta. cbn [fst]. rewrite forallb_app. cbn [forallb].
    by rewrite !andb_true_r.
  - destruct (isinstance e Exception); [| done]. cbv zeta. cbn [fst].
    rewrite forallb_app. cbn [forallb id]. by rewrite andb_false_r.
Qed.

(** A run changes neither the file system nor what imports do. *)
Lemma main_keeps_world s : fs (main s).2 = fs s ∧ loader (main s).2 = loader s.
Proof.
  rewrite main_run.
  destruct (probe_result _ true) as [passed | e]; by vm_compute.
Qed.

Lemma next_process_same s s1 :
  fs s1 = fs s → loader s1 = loader s → next_process s s1 = s.
Proof. intros Hfs Hld. unfold next_process. rewrite Hfs, Hld. by destruct s. Qed.

End Validator.

(** ** The Startup Prober *)

Module Prober.
Import Python Frame TestStartup.

(** *** The checks one by one *)

(** The configuration probe, by what its three steps do. *)
Lemma test_basic_imports_run s :
  let probe := probe_configuration (loader s) (search_dirs s) in
  test_basic_imports s
  = (probe_result probe true, after (configuration_report probe) ["src.config"] s).
Proof.
  cbv zeta. unfold test_basic_imports, try_except, probe_configuration.
  rewrite bind_print, bind_from_import, import_member_with_output.
  unfold import_member, configuration_report.
  destruct (member_of _ _ _) as [[[st | e] |] | e]; cbv beta iota;
    [ rewrite bind_print, bind_call, bind_lift;
      destruct (app_name st) as [name | e]; cbv beta iota | | | ];
    try (by same_state);
    destruct (isinstance e Exception) eqn:He; simpl; rewrite ?He; by same_state.
Qed.

(** One import inside the guarded block of [test_api_structure]. *)
Lemma import_routes_cons imp name line rest :
  import_routes imp ((name, line) :: rest)
  = match imp name with
    | Raises e => Trace [name] [] (Some e)
    | Returns _ =>
        let t := import_routes imp rest in
        Trace (name :: attempted t) (line :: ready t) (failure t)
    end.
Proof. reflexivity. Qed.

(** The API-structure probe: one guarded run of the three imports. *)
Lemma test_api_structure_run s :
  let t := import_routes (import_router s) routes in
  test_api_structure s = (api_result t, after (api_report t) (attempted t) s).
Proof.
  cbv zeta. unfold test_api_structure, try_except, routes, api_result, api_report.
  rewrite !import_routes_cons. unfold import_router.
  rewrite bind_print, bind_from_import, import_member_with_output.
  destruct (import_member s "src.api.v1.health" "router") as [o1 | e]; cbv beta iota.
  - rewrite bind_print, bind_from_import. import_frame.
    destruct (import_member s "src.api.v1.photos" "router") as [o2 | e]; cbv beta iota.
    + rewrite bind_print, bind_from_import. import_frame.
      destruct (import_member s "src.api.v1.albums" "router") as [o3 | e]; cbv beta iota.
      * rewrite bind_print. by same_state.
      * simpl. destruct (isinstance e Exception); by same_state.
    + simpl. destruct (isinstance e Exception); by same_state.
  - simpl. destruct (isinstance e Exception); by same_state.
Qed.

(** *** The run *)

Lemma prober_summary_run verdict s :
  main_summary verdict s = (Returns tt, with_output (summary_report verdict) s).
Proof.
  unfold main_summary, summary_report, show_available_endpoints,
    show_startup_commands, capability_report.
  destruct verdict.
  - rewrite bind_print. unfold bind. rewrite !print_all_run. by same_state.
  - by same_state.
Qed.

(** Both probes run, whatever the first one found, unless it raised
    something that is no [Exception]. *)
Lemma probes_run s :
  let probe := probe_configuration (loader s) (search_dirs s) in
  let t := import_routes (import_router s) routes in
  check_results s
  = match probe_result probe true with
    | Raises e =>
        (Raises e, after (heading ++ configuration_report probe) ["src.config"] s)
    | Returns imports_ok =>
        let lines := heading ++ configuration_report probe ++ api_report t in
        let names := "src.config" :: attempted t in
        match api_result t with
        | Raises e => (Raises e, after lines names s)
        | Returns api_ok => (Returns [imports_ok; api_ok], after lines names s)
        end
    end.
Proof.
  cbv zeta. unfold check_results, heading. rewrite !bind_print.
  unfold bind at 1. rewrite test_basic_imports_run.
  change (loader (with_output _ (with_output _ s))) with (loader s).
  change (search_dirs (with_output _ (with_output _ s))) with (search_dirs s).
  destruct (probe_result _ true) as [imports_ok | e]; [| by same_state].
  unfold bind at 1. rewrite test_api_structure_run.
  change (import_router (after _ _ (with_output _ (with_output _ s))))
    with (import_router s).
  destruct (api_result _) as [api_ok | e]; by same_state.
Qed.

Lemma prober_main_results :
  eqM main (rs <- check_results ;; main_summary (forallb id rs)).
Proof.
  unfold main, check_results.
  do 2 (assoc_right; same_head).
  assoc_right; same_head. assoc_right; same_head.
  ret_right. simpl. by rewrite andb_true_r.
Qed.

(** The whole run of [main], read off what the imports do. *)
Lemma prober_main_run s :
  let probe := probe_configuration (loader s) (search_dirs s) in
  let t := import_routes (import_router s) routes in
  main s
  = match probe_result probe true with
    | Raises e =>
        (Raises e, after (heading ++ configuration_report probe) ["src.config"] s)
    | Returns imports_ok =>
        let lines := heading ++ configuration_report probe ++ api_report t in
        let names := "src.config" :: attempted t in
        match api_result t with
        | Raises e => (Raises e, after lines names s)
        | Returns api_ok =>
            (Returns tt,
             after (lines ++ summary_report (imports_ok && api_ok)) names s)
        end
    end.
Proof.
  cbv zeta. rewrite prober_main_results. unfold bind. rewrite probes_run. cbv zeta.
  destruct (probe_result _ true) as [imports_ok | e]; [| done].
  destruct (api_result _) as [api_ok | e]; [| done].
  rewrite prober_summary_run. simpl forallb. rewrite andb_true_r.
  unfold after, with_output. cbn [fs loader cwd sys_path stdout import_log].
  by rewrite <- !app_assoc.
Qed.

(** *** What the checks print *)

Lemma tick_is_probe_line rest : check_line ("✓ " +:+ rest).
Proof. reflexivity. Qed.

Lemma cross_is_probe_line rest : check_line ("✗ " +:+ rest).
Proof. reflexivity. Qed.

Lemma ready_lines_are_check_lines imp modules :
  Forall (λ m, check_line m.2) modules → Forall check_line (ready (import_routes imp modules)).
Proof.
  induction 1 as [| [name line] rest Hline _ IH]; simpl; [constructor |].
  destruct (imp name); simpl; [by constructor | constructor].
Qed.

Lemma check_report_lines probe imp :
  Forall check_line
    (heading ++ configuration_report probe ++ api_report (import_routes imp routes)).
Proof.
  rewrite !Forall_app. split; [| split].
  - constructor; [done |]. constructor; [done | constructor].
  - unfold configuration_report. constructor; [done |].
    destruct probe as [name | ph e].
    + constructor; [done |]. constructor; [apply tick_is_probe_line | constructor].
    + rewrite Forall_app. split.
      * destruct ph; repeat (constructor; try done).
      * destruct (isinstance e Exception); [| constructor].
        constructor; [apply cross_is_probe_line | constructor].
  - unfold api_report. constructor; [done |]. rewrite Forall_app. split.
    + apply ready_lines_are_check_lines.
      constructor; [done |]. constructor; [done |]. constructor; [done | constructor].
    + destruct (failure _) as [e |]; [| constructor].
      destruct (isinstance e Exception); [| constructor].
      constructor; [apply cross_is_probe_line | constructor].
Qed.

(** No import of the run failed exactly when every module imports. *)
Lemma no_failure_iff imp modules :
  failure (import_routes imp modules) = None
  ↔ ∀ m, m ∈ modules.*1 → ∃ o, imp m = Returns o.
Proof.
  induction modules as [| [name line] rest IH]; simpl.
  - split; [| done]. intros _ m Hm. by apply elem_of_nil in Hm.
  - destruct (imp name) as [o | e] eqn:Himp; simpl.
    + rewrite IH. split.
      * intros Hrest m Hm. apply elem_of_cons in Hm as [-> | Hm]; eauto.
      * intros Hall m Hm. apply Hall. by right.
    + split; [done |]. intros Hall.
      destruct (Hall name) as [o Ho]; [by left | congruence].
Qed.

Lemma capability_lines_are_summary_lines l :
  l ∈ capability_report → is_summary_line l = true.
Proof.
  intros H. repeat (apply elem_of_cons in H as [-> | H]; [reflexivity |]).
  by apply elem_of_nil in H.
Qed.

Lemma failure_banner_not_in_report : failure_banner ∉ capability_report.
Proof.
  intros H.
  repeat (apply elem_of_cons in H as [H | H]; [vm_compute in H; discriminate |]).
  by apply elem_of_nil in H.
Qed.

(** *** The summary *)

(** Both CheckResults are true exactly when every probe succeeds. *)
Lemma all_passed_iff s :
  (∃ rs, (check_results s).1 = Returns rs ∧ forallb id rs = true) ↔ probes_succeed s.
Proof.
  rewrite probes_run. cbv zeta. unfold probes_succeed, api_result.
  rewrite <- no_failure_iff.
  destruct (probe_configuration _ _) as [name | ph e]; cbn [probe_result].
  - destruct (failure _) as [e |].
    + split; [| by intros [_ ?]].
      intros (rs & Hrs & Hall). destruct (isinstance e Exception); [| done].
      simpl in Hrs. by injection Hrs as <-.
    + split; [by eauto |]. intros _. by exists [true; true].
  - split; [| by intros [[? ?] _]].
    intros (rs & Hrs & Hall). destruct (isinstance e Exception); [| done].
    destruct (failure _) as [e' |]; [destruct (isinstance e' Exception) |];
      simpl in Hrs; try done; by injection Hrs as <-.
Qed.

(** [main] prints what the checks print and then, when both checks
    gave a result, the summary for their conjunction. *)
Lemma output_of_main s :
  output_of main s
  = output_of check_results s ++
    match (check_results s).1 with
    | Returns rs => summary_report (forallb id rs)
    | Raises _ => []
    end.
Proof.
  pose proof (prober_main_run s) as Hmain. pose proof (probes_run s) as Hres.
  cbv zeta in Hmain, Hres.
  destruct (probe_result _ true) as [imports_ok | e].
  - destruct (api_result _) as [api_ok | e].
    + rewrite (output_of_after _ _ _ _ _ Hmain), (output_of_after _ _ _ _ _ Hres), Hres.
      simpl. by rewrite andb_true_r, <- !app_assoc.
    + rewrite (output_of_after _ _ _ _ _ Hmain), (output_of_after _ _ _ _ _ Hres), Hres.
      simpl. by rewrite app_nil_r.
  - rewrite (output_of_after _ _ _ _ _ Hmain), (output_of_after _ _ _ _ _ Hres), Hres.
    simpl. by rewrite app_nil_r.
Qed.

Lemma check_results_print_check_lines s : Forall check_line (output_of check_results s).
Proof.
  pose proof (probes_run s) as Hres. cbv zeta in Hres.
  pose proof (check_report_lines (probe_configuration (loader s) (search_dirs s))
                (import_router s)) as Hlines.
  rewrite !Forall_app in Hlines. destruct Hlines as (Hh & Hc & Ha).
  destruct (probe_result _ true) as [imports_ok | e].
  - destruct (api_result _) as [api_ok | e];
      rewrite (output_of_after _ _ _ _ _ Hres), !Forall_app; done.
  - rewrite (output_of_after _ _ _ _ _ Hres), !Forall_app; done.
Qed.

(** C6. The endpoint capability report and the startup commands are
    printed if and only if the configuration probe and all three route
    imports succeed; when a check fails, the summary is the failure
    banner and nothing else. *)
Theorem capability_report_iff_all_probes_succeed s :
  (∀ l, l ∈ capability_report → (l ∈ output_of main s ↔ probes_succeed s)) ∧
  (probes_succeed s →
     output_of main s
     = output_of check_results s ++
       success_banner :: (available_endpoints ++ startup_commands) ++ [hint_line]) ∧
  (∀ rs, (check_results s).1 = Returns rs → forallb id rs = false →
     output_of main s = output_of check_results s ++ [failure_banner]).
Proof.
  split; [| split].
  - intros l Hl. rewrite output_of_main, elem_of_app, <- all_passed_iff. split.
    + intros [Hin | Hin].
      * pose proof (check_results_print_check_lines s) as Hlines.
        rewrite Forall_forall in Hlines. specialize (Hlines l Hin).
        apply capability_lines_are_summary_lines in Hl.
        unfold check_line in Hlines. congruence.
      * destruct (check_results s).1 as [rs | e]; [| by apply elem_of_nil in Hin].
        exists rs. split; [done |].
        destruct (forallb id rs); [done |].
        apply list_elem_of_singleton in Hin. subst l.
        by apply failure_banner_not_in_report in Hl.
    + intros (rs & -> & ->). right. unfold summary_report.
      rewrite elem_of_cons, elem_of_app. by right; left.
  - intros Hok. apply all_passed_iff in Hok as (rs & Hrs & Hall).
    by rewrite output_of_main, Hrs, Hall.
  - intros rs Hrs Hall. by rewrite output_of_main, Hrs, Hall.
Qed.

(** *** The guarded block of route imports *)

(** C10. The three route imports run inside one guarded block with one
    outcome: when an import raises, the imports after it are not
    attempted, the lines of the imports before it have been printed, the
    text of that first exception is the only failure detail, and the
    check is [False]; the check is [True] when all three import. *)
Theorem route_imports_share_one_guard s e :
  isinstance e Exception = true →
  let title := nl +:+ "測試 API 結構..." in
  let failed := "✗ API 結構測試失敗: " +:+ exn_str e in
  (import_router s "src.api.v1.health" = Raises e →
   test_api_structure s
   = (Returns false, after [title; failed] ["src.api.v1.health"] s)) ∧
  (∀ o1, import_router s "src.api.v1.health" = Returns o1 →
   import_router s "src.api.v1.photos" = Raises e →
   test_api_structure s
   = (Returns false,
      after [title; "✓ Health API 路由已準備"; failed]
            ["src.api.v1.health"; "src.api.v1.photos"] s)) ∧
  (∀ o1 o2, import_router s "src.api.v1.health" = Returns o1 →
   import_router s "src.api.v1.photos" = Returns o2 →
   import_router s "src.api.v1.albums" = Raises e →
   test_api_structure s
   = (Returns false,
      after [title; "✓ Health API 路由已準備"; "✓ Photos API 路由已準備"; failed]
            ["src.api.v1.health"; "src.api.v1.photos"; "src.api.v1.albums"] s)) ∧
  (∀ o1 o2 o3, import_router s "src.api.v1.health" = Returns o1 →
   import_router s "src.api.v1.photos" = Returns o2 →
   import_router s "src.api.v1.albums" = Returns o3 →
   test_api_structure s
   = (Returns true,
      after [title; "✓ Health API 路由已準備"; "✓ Photos API 路由已準備";
             "✓ Albums API 路由已準備"]
            ["src.api.v1.health"; "src.api.v1.photos"; "src.api.v1.albums"] s)).
Proof.
  intros He. cbv zeta. rewrite test_api_structure_run. cbv zeta.
  unfold routes, api_result, api_report. rewrite !import_routes_cons.
  repeat split.
  - intros ->. simpl. by rewrite He.
  - intros o1 -> ->. simpl. by rewrite He.
  - intros o1 o2 -> -> ->. simpl. by rewrite He.
  - by intros o1 o2 o3 -> -> ->.
Qed.

Lemma route_imports_share_one_guard_witness :
  let s := Examples.probing Examples.health_broken in
  let e := Exn ImportError "cannot import name 'text' from 'sqlalchemy'" in
  isinstance e Exception = true ∧
  import_router s "src.api.v1.health" = Raises e ∧
  import_router s "src.api.v1.photos" = Returns Object ∧
  test_api_structure s
  = (Returns false,
     after [nl +:+ "測試 API 結構..."; "✗ API 結構測試失敗: " +:+ exn_str e]
           ["src.api.v1.health"] s).
Proof.
  cbv zeta. split; [reflexivity |]. split; [reflexivity |]. split; [reflexivity |].
  apply (route_imports_share_one_guard (Examples.probing Examples.health_broken)
           (Exn ImportError "cannot import name 'text' from 'sqlalchemy'"));
    reflexivity.
Defined.

(** *** What a run leaves behind *)


(** A run changes neither the file system, nor what imports do, nor the
    working directory, nor [sys.path]. *)
Lemma prober_keeps_world s :
  fs (main s).2 = fs s ∧ loader (main s).2 = loader s ∧
  cwd (main s).2 = cwd s ∧ sys_path (main s).2 = sys_path s.
Proof.
  rewrite prober_main_run. cbv zeta.
  destruct (probe_result _ true) as [imports_ok | e]; [| done].
  by destruct (api_result _) as [api_ok | e].
Qed.

(** The script moves to the directory two levels above its own path
    before [main] runs, when there is such a directory. *)
Lemma script_run file s :
  let target := resolve (cwd s) (parent (parent (Path file))) in
  fs s !! target = Some Dir →
  script file s = main (with_cwd target (with_sys_path "backend" s)).
Proof.
  cbv zeta. intros Hdir. unfold script.
  rewrite bind_sys_path_insert0. unfold bind, chdir. simpl. by rewrite Hdir.
Qed.

Lemma script_keeps_world file s :
  fs (script file s).2 = fs s ∧ loader (script file s).2 = loader s.
Proof.
  destruct (fs s !! resolve (cwd s) (parent (parent (Path file)))) as [[] |] eqn:Hdir.
  2: { rewrite (script_run file s Hdir).
       by destruct (prober_keeps_world
                      (with_cwd (resolve (cwd s) (parent (parent (Path file))))
                                (with_sys_path "backend" s))) as (-> & -> & _). }
  all: unfold script; rewrite bind_sys_path_insert0; unfold bind, chdir; simpl;
    by rewrite Hdir.
Qed.

Lemma capability_report_iff_all_probes_succeed_witness :
  let ok := Examples.probing Examples.ready in
  let broken := Examples.probing Examples.health_broken in
  probes_succeed ok ∧
  ("" ∈ output_of main ok ↔ probes_succeed ok) ∧
  output_of main ok
  = output_of check_results ok ++
    success_banner :: (available_endpoints ++ startup_commands) ++ [hint_line] ∧
  (check_results broken).1 = Returns [true; false] ∧
  output_of main broken = output_of check_results broken ++ [failure_banner].
Proof.
  cbv zeta.
  assert (Hok : probes_succeed (Examples.probing Examples.ready)).
  { split; [by eexists |]. intros m Hm.
    repeat (apply elem_of_cons in Hm as [-> | Hm]; [by eexists |]).
    by apply elem_of_nil in Hm. }
  split; [exact Hok |]. split; [| split; [| split]].
  - apply (proj1 (capability_report_iff_all_probes_succeed _)).
    unfold capability_report, available_endpoints.
    do 8 (apply elem_of_cons; right). by apply elem_of_cons; left.
  - exact (proj1 (proj2 (capability_report_iff_all_probes_succeed _)) Hok).
  - reflexivity.
  - apply (proj2 (proj2 (capability_report_iff_all_probes_succeed _)) [true; false]);
      reflexivity.
Defined.

End Prober.

(** ** Both flows *)

Module Readiness.
Import Python Frame.

(** C1. In both flows the verdict is the conjunction of the CheckResults
    of the run: the validator's [all_good] and the condition the prober
    branches on are [forallb id] of the results, which is true exactly
    when every result is; a loop over no checks leaves the verdict true. *)
Theorem run_verdict_is_conjunction :
  eqM ValidateSetup.main_checks
      (rs <- ValidateSetup.check_results ;; ret (forallb id rs)) ∧
  eqM ValidateSetup.main
      (rs <- ValidateSetup.check_results ;; ValidateSetup.main_summary (forallb id rs)) ∧
  eqM TestStartup.main
      (rs <- TestStartup.check_results ;; TestStartup.main_summary (forallb id rs)) ∧
  (∀ check checks,
     eqM (ValidateSetup.for_checks check checks true)
         (rs <- ValidateSetup.run_all check checks ;; ret (forallb id rs))) ∧
  (∀ rs : list bool, forallb id rs = true ↔ ∀ r, r ∈ rs → r = true) ∧
  (∀ check, eqM (ValidateSetup.for_checks check [] true) (ret true)) ∧
  forallb id [] = true.
Proof.
  split; [apply Validator.main_checks_results |].
  split; [apply Validator.main_results |].
  split; [apply Prober.prober_main_results |].
  split; [intros check checks; apply Validator.for_checks_run_all |].
  split; [| by split].
  intros rs. rewrite forallb_forall. split.
  - intros H r Hr. apply H. by apply list_elem_of_In.
  - intros H r Hr. apply H. by apply list_elem_of_In.
Qed.

Lemma run_verdict_is_conjunction_witness :
  ValidateSetup.main_checks Examples.no_requirements
  = (rs <- ValidateSetup.check_results ;; ret (forallb id rs)) Examples.no_requirements ∧
  (ValidateSetup.main_checks Examples.no_requirements).1 = Returns false ∧
  (∀ r, r ∈ [true; true] → r = true).
Proof.
  split; [apply (proj1 run_verdict_is_conjunction) |].
  split; [reflexivity |].
  apply (proj1 (proj1 (proj2 (proj2 (proj2 (proj2 run_verdict_is_conjunction))))
                  [true; true])).
  reflexivity.
Defined.

(** *** Independence *)



(** *** Classification of failures *)

(** Claim C5 as stated fails: the validator reports a failure of the
    call [get_settings()] as an import failure when the exception is an
    [ImportError], and a module that does not even parse as a
    configuration error; the prober has one line for every failure of
    its configuration probe. *)
Lemma classification_is_not_by_phase :
  let s := Examples.lazy_import in
  let e := Exn ModuleNotFoundError "No module named 'pydantic_settings'" in
  let s' := Examples.syntax_error in
  let e' := Exn SyntaxError "invalid syntax (config.py, line 3)" in
  (probe_configuration (loader s) (ValidateSetup.config_dirs s) = Failed Calling e ∧
   kind_of_phase Calling = RuntimeFailure ∧
   output_of (ValidateSetup.configuration_test true) s
   = [nl +:+ "3. Backend Configuration Test:";
      "✗ Configuration import failed: No module named 'pydantic_settings'"] ∧
   (ValidateSetup.failure_line RuntimeFailure e
      ∉ output_of (ValidateSetup.configuration_test true) s)) ∧
  (probe_configuration (loader s') (ValidateSetup.config_dirs s') = Failed Importing e' ∧
   kind_of_phase Importing = ImportFailure ∧
   output_of (ValidateSetup.configuration_test true) s'
   = [nl +:+ "3. Backend Configuration Test:";
      "✗ Configuration error: invalid syntax (config.py, line 3)"] ∧
   (ValidateSetup.failure_line ImportFailure e'
      ∉ output_of (ValidateSetup.configuration_test true) s')) ∧
  output_of TestStartup.test_basic_imports (Examples.probing s)
  = ["測試基本模組導入..."; "✓ Config 模組導入成功";
     "✗ 配置導入失敗: No module named 'pydantic_settings'"] ∧
  output_of TestStartup.test_basic_imports (Examples.probing s')
  = ["測試基本模組導入..."; "✗ 配置導入失敗: invalid syntax (config.py, line 3)"].
Proof.
  cbv zeta. repeat split; try reflexivity.
  - apply (bool_decide_unpack _). by vm_compute.
  - apply (bool_decide_unpack _). by vm_compute.
Qed.

(** C5, amended. A failed check reports the text of the exception it
    caught.  The validator words the report by the class of the
    exception, whichever step raised it: an import failure for an
    [ImportError], a configuration error for any other [Exception].
    The prober has a single report for its configuration probe and a
    single one for its route imports. *)
Theorem failures_classified_by_exception_class s ph e :
  isinstance e Exception = true →
  (probe_configuration (loader s) (ValidateSetup.config_dirs s) = Failed ph e →
   ∀ all_good,
     (ValidateSetup.configuration_test all_good s).1 = Returns false ∧
     last (output_of (ValidateSetup.configuration_test all_good) s)
     = Some (if isinstance e ImportError
             then "✗ Configuration import failed: " +:+ exn_str e
             else "✗ Configuration error: " +:+ exn_str e)) ∧
  (probe_configuration (loader s) (search_dirs s) = Failed ph e →
   (TestStartup.test_basic_imports s).1 = Returns false ∧
   last (output_of TestStartup.test_basic_imports s)
   = Some ("✗ 配置導入失敗: " +:+ exn_str e)) ∧
  (TestStartup.failure (TestStartup.import_routes (import_router s) TestStartup.routes)
   = Some e →
   (TestStartup.test_api_structure s).1 = Returns false ∧
   last (output_of TestStartup.test_api_structure s)
   = Some ("✗ API 結構測試失敗: " +:+ exn_str e)).
Proof.
  intros He. split; [| split].
  - intros Hprobe all_good.
    pose proof (Validator.configuration_test_run all_good s) as Hrun.
    cbv zeta in Hrun. rewrite Hprobe in Hrun.
    rewrite Hrun. split; [simpl; by rewrite He |].
    erewrite output_of_app; [| by rewrite Hrun].
    unfold ValidateSetup.configuration_report, ValidateSetup.kind_of_exception.
    rewrite He. change (?x :: ?l ++ [?y]) with ((x :: l) ++ [y]). rewrite last_snoc.
    by destruct (isinstance e ImportError).
  - intros Hprobe.
    pose proof (Prober.test_basic_imports_run s) as Hrun.
    cbv zeta in Hrun. rewrite Hprobe in Hrun.
    rewrite Hrun. split; [simpl; by rewrite He |].
    rewrite (output_of_after _ _ _ _ _ Hrun).
    unfold TestStartup.configuration_report.
    rewrite He. change (?x :: ?l ++ [?y]) with ((x :: l) ++ [y]). by rewrite last_snoc.
  - intros Hfail.
    pose proof (Prober.test_api_structure_run s) as Hrun.
    cbv zeta in Hrun.
    rewrite Hrun. unfold TestStartup.api_result. rewrite Hfail, He.
    split; [done |].
    rewrite (output_of_after _ _ _ _ _ Hrun).
    unfold TestStartup.api_report.
    rewrite Hfail, He. change (?x :: ?l ++ [?y]) with ((x :: l) ++ [y]). by rewrite last_snoc.
Qed.

Lemma failures_classified_by_exception_class_witness :
  let s := Examples.lazy_import in
  let e := Exn ModuleNotFoundError "No module named 'pydantic_settings'" in
  isinstance e Exception = true ∧
  probe_configuration (loader s) (ValidateSetup.config_dirs s) = Failed Calling e ∧
  (ValidateSetup.configuration_test true s).1 = Returns false ∧
  last (output_of (ValidateSetup.configuration_test true) s)
  = Some "✗ Configuration import failed: No module named 'pydantic_settings'".
Proof.
  cbv zeta. split; [reflexivity |]. split; [reflexivity |].
  apply (proj1 (failures_classified_by_exception_class Examples.lazy_import Calling
                  (Exn ModuleNotFoundError "No module named 'pydantic_settings'")
                  eq_refl) eq_refl true).
Defined.

(** *** Completion *)




(** *** The working directory *)

(** C8. Only the prober moves to the project root.  The validator
    resolves its paths against the directory it was started in: for
    the complete project, started in [scripts/], it finds none of the
    thirteen paths and returns 1, and 0 when started in the root. *)
Theorem validator_uses_invocation_directory :
  let s := Examples.started_in_scripts in
  fs s = fs Examples.ready ∧ loader s = loader Examples.ready ∧
  cwd s = Examples.project_root ++ ["scripts"] ∧
  (ValidateSetup.script Examples.ready).1 = Returns 0%Z ∧
  (ValidateSetup.script s).1 = Returns 1%Z ∧
  ValidateSetup.existence_results s = replicate 13 false ∧
  cwd (ValidateSetup.script s).2 = Examples.project_root ++ ["scripts"] ∧
  cwd (TestStartup.script "/home/dev/pcm/scripts/test-startup.py" s).2
  = Examples.project_root ∧
  output_of (TestStartup.script "/home/dev/pcm/scripts/test-startup.py") s
  = output_of (TestStartup.script "/home/dev/pcm/scripts/test-startup.py") Examples.ready.
Proof. cbv zeta. repeat split; by vm_compute. Qed.

(** *** Running again *)

(** C9. A run of either script leaves the file system and the behaviour
    of imports as they were, so a second process started the same way
    goes through the same run: the same CheckResults, the same verdict,
    the same report. *)
Theorem rerun_gives_same_results s file :
  let again := next_process s (ValidateSetup.script s).2 in
  let again' := next_process s (TestStartup.script file s).2 in
  again = s ∧ again' = s ∧
  ValidateSetup.check_results again = ValidateSetup.check_results s ∧
  ValidateSetup.script again = ValidateSetup.script s ∧
  TestStartup.script file again' = TestStartup.script file s ∧
  (let start := sys_path_insert0 "backend" ;; chdir (parent (parent (Path file))) in
   (start ;; TestStartup.check_results) again' = (start ;; TestStartup.check_results) s).
Proof.
  cbv zeta.
  assert (Hv : next_process s (ValidateSetup.script s).2 = s).
  { destruct (Validator.main_keeps_world s). by apply Validator.next_process_same. }
  assert (Hp : next_process s (TestStartup.script file s).2 = s).
  { destruct (Prober.script_keeps_world file s). by apply Validator.next_process_same. }
  by rewrite Hv, Hp.
Qed.

End Readiness.

(** ** Paths as strings *)

Module Pathlib.
Import Python Frame.

Lemma split_slash_plain p acc :
  no_slash p = true → split_slash acc p = [String.rev_app acc p].
Proof.
  revert acc. induction p as [| c p IH]; intros acc Hp; simpl in *; [done |].
  apply andb_true_iff in Hp as [Hc Hp].
  apply negb_true_iff in Hc. rewrite Hc. by apply IH.
Qed.

Lemma split_slash_sep p rest acc :
  no_slash p = true →
  split_slash acc (p +:+ String "/"%char rest)
  = String.rev_app acc p :: split_slash "" rest.
Proof.
  revert acc. induction p as [| c p IH]; intros acc Hp.
  - reflexivity.
  - simpl in Hp. apply andb_true_iff in Hp as [Hc Hp].
    apply negb_true_iff in Hc.
    change (String c p +:+ String "/"%char rest)
      with (String c (p +:+ String "/"%char rest)).
    simpl. rewrite Hc. by apply IH.
Qed.

(** Splitting what joining with ["/"] built gives the components back. *)
Lemma split_slash_concat p ps acc :
  forallb no_slash (p :: ps) = true →
  split_slash acc (String.concat "/" (p :: ps)) = String.rev_app acc p :: ps.
Proof.
  revert p acc. induction ps as [| q ps IH]; intros p acc Hall.
  - simpl in Hall. apply andb_true_iff in Hall as [Hp _].
    by apply split_slash_plain.
  - change (forallb no_slash (p :: q :: ps))
      with (no_slash p && forallb no_slash (q :: ps)) in Hall.
    apply andb_true_iff in Hall as [Hp Hrest].
    change (String.concat "/" (p :: q :: ps))
      with (p +:+ String "/"%char (String.concat "/" (q :: ps))).
    rewrite split_slash_sep by done. by rewrite IH.
Qed.

Lemma filter_plain parts :
  forallb plain_part parts = true → List.filter keep_part parts = parts.
Proof.
  induction parts as [| p ps IH]; intros Hall; simpl in *; [done |].
  apply andb_true_iff in Hall as [Hp Hps].
  unfold plain_part in Hp. apply andb_true_iff in Hp as [Hk _].
  rewrite Hk. by rewrite IH.
Qed.

Lemma plain_no_slash parts :
  forallb plain_part parts = true → forallb no_slash parts = true.
Proof.
  induction parts as [| p ps IH]; intros Hall; simpl in *; [done |].
  apply andb_true_iff in Hall as [Hp Hps].
  unfold plain_part in Hp. apply andb_true_iff in Hp as [_ Hn].
  by rewrite Hn, IH.
Qed.

(** [Path(str(p)) == p] for an absolute path of plain components. *)
Lemma Path_abs_str parts :
  forallb plain_part parts = true → Path (abs_str parts) = Abs parts.
Proof.
  intros Hall. unfold abs_str.
  change ("/" +:+ String.concat "/" parts)
    with (String "/"%char (String.concat "/" parts)).
  unfold Path. cbn [split_slash]. rewrite Ascii.eqb_refl. cbn [List.filter keep_part].
  change (keep_part (String.rev "")) with false. cbv iota.
  destruct parts as [| p ps].
  - reflexivity.
  - rewrite split_slash_concat by by apply plain_no_slash.
    change (String.rev_app "" p) with p. by rewrite filter_plain.
Qed.

(** [Path(name)] for a bare file name. *)
Lemma Path_bare name : plain_part name = true → Path name = Rel [name].
Proof.
  intros Hp. unfold plain_part in Hp. apply andb_true_iff in Hp as [Hk Hn].
  unfold Path. rewrite split_slash_plain by done.
  change (String.rev_app "" name) with name. simpl. rewrite Hk.
  destruct name as [| c name]; [done |].
  simpl in Hn. apply andb_true_iff in Hn as [Hc _]. apply negb_true_iff in Hc.
  destruct c as [[] [] [] [] [] [] [] []]; try done.
Qed.

End Pathlib.

(** ** More on the Structural Validator *)

Module ValidatorRuns.
Import Python Frame ValidateSetup Validator.

Lemma output_of_validated {A} (m : M A) s r lines :
  m s = (r, validated lines s) → output_of m s = lines.
Proof. intros H. apply output_of_app. by rewrite H. Qed.

(** The state [main] ends in and what it has printed by then. *)
Lemma main_final_state s :
  (main s).2 = validated (output_of main s) s.
Proof.
  pose proof (main_run s) as Hrun. cbv zeta in Hrun.
  destruct (probe_result _ true) as [passed | e];
    by rewrite (output_of_validated _ _ _ _ Hrun), Hrun.
Qed.

(** The report of the existence checks is printed first in every run. *)
Lemma main_prints_existence_report s :
  ∃ rest, output_of main s = existence_report s ++ rest.
Proof.
  pose proof (main_run s) as Hrun. cbv zeta in Hrun.
  destruct (probe_result _ true) as [passed | e];
    rewrite (output_of_validated _ _ _ _ Hrun); eauto.
Qed.

Lemma forallb_id_fmap {A} (f : A → bool) (l : list A) :
  forallb id (map f l) = true ↔ ∀ x, x ∈ l → f x = true.
Proof.
  rewrite forallb_forall. split.
  - intros H x Hx. apply (H (f x)). apply in_map. by apply list_elem_of_In.
  - intros H b Hb. apply in_map_iff in Hb as (x & <- & Hx).
    apply H. by apply list_elem_of_In.
Qed.

(** X1. [main] returns 0 exactly when something is at each of the seven
    file paths, a directory is at each of the six directory paths, and
    the configuration loads with a readable [app_name]. *)
Theorem main_returns_0_iff s :
  (main s).1 = Returns 0%Z
  ↔ (∀ c, c ∈ structure_checks → exists_at s c.1 = true) ∧
    (∀ c, c ∈ directory_checks → dir_at s c.1 = true) ∧
    ∃ name, probe_configuration (loader s) (config_dirs s) = Loaded name.
Proof.
  rewrite main_returns_or_propagates. unfold existence_results.
  rewrite forallb_app, <- !forallb_id_fmap.
  destruct (probe_configuration _ _) as [name | ph e].
  - destruct (forallb id (map _ structure_checks));
      destruct (forallb id (map _ directory_checks)); simpl;
      split; try done; try (by intros (? & ? & _)); eauto.
  - split; [| by intros (_ & _ & [? ?])].
    by destruct (isinstance e Exception).
Qed.

(** X2. A declared path that fails its check is named in the report, on
    a line of its own, and [main] does not return 0. *)
Theorem failed_path_is_reported s c :
  (c ∈ structure_checks ∧ exists_at s c.1 = false) ∨
  (c ∈ directory_checks ∧ dir_at s c.1 = false) →
  ("✗ " +:+ c.2 +:+ ": " +:+ c.1 +:+ " (NOT FOUND)") ∈ output_of main s ∧
  (main s).1 ≠ Returns 0%Z.
Proof.
  intros Hc. split.
  - destruct (main_prints_existence_report s) as [rest ->].
    apply elem_of_app. left. unfold existence_report.
    destruct Hc as [[Hin Hf] | [Hin Hf]].
    + apply elem_of_app. right. apply elem_of_app. left.
      apply list_elem_of_fmap. exists c. by rewrite Hf.
    + do 3 (apply elem_of_app; right).
      apply list_elem_of_fmap. exists c. by rewrite Hf.
  - rewrite main_returns_0_iff. intros (Hfiles & Hdirs & _).
    destruct Hc as [[Hin Hf] | [Hin Hf]].
    + specialize (Hfiles c Hin). congruence.
    + specialize (Hdirs c Hin). congruence.
Qed.

Lemma main_returns_0_iff_witness :
  (main Examples.ready).1 = Returns 0%Z.
Proof.
  apply (proj2 (main_returns_0_iff Examples.ready)).
  split; [| split].
  - intros c Hc.
    repeat (apply elem_of_cons in Hc as [-> | Hc]; [reflexivity |]).
    by apply elem_of_nil in Hc.
  - intros c Hc.
    repeat (apply elem_of_cons in Hc as [-> | Hc]; [reflexivity |]).
    by apply elem_of_nil in Hc.
  - by exists "PCM".
Defined.

Lemma failed_path_is_reported_witness :
  let s := Examples.no_requirements in
  exists_at s "backend/requirements.txt" = false ∧
  ("✗ Backend dependencies: backend/requirements.txt (NOT FOUND)" ∈ output_of main s ∧
   (main s).1 ≠ Returns 0%Z).
Proof.
  cbv zeta. split; [reflexivity |].
  apply (failed_path_is_reported Examples.no_requirements
           ("backend/requirements.txt", "Backend dependencies")).
  left. split; [| reflexivity].
  do 2 (apply elem_of_cons; right). by apply elem_of_cons; left.
Defined.

(** X3. [main] looks at the file system through the thirteen declared
    paths only: two states that agree on what is at those paths, and in
    which the configuration probe does the same, get the same status and
    the same report, whatever else differs. *)
Theorem main_reads_declared_paths_only s s' :
  (∀ c, c ∈ structure_checks ++ directory_checks →
        fs s !! resolve (cwd s) (Path c.1) = fs s' !! resolve (cwd s') (Path c.1)) →
  probe_configuration (loader s) (config_dirs s)
  = probe_configuration (loader s') (config_dirs s') →
  (main s).1 = (main s').1 ∧ output_of main s = output_of main s'.
Proof.
  intros Hfs Hprobe.
  assert (Hex : ∀ c, c ∈ structure_checks → exists_at s c.1 = exists_at s' c.1).
  { intros c Hc. unfold exists_at. rewrite Hfs; [done |]. apply elem_of_app. by left. }
  assert (Hdir : ∀ c, c ∈ directory_checks → dir_at s c.1 = dir_at s' c.1).
  { intros c Hc. unfold dir_at. rewrite Hfs; [done |]. apply elem_of_app. by right. }
  assert (Hres : existence_results s = existence_results s').
  { unfold existence_results. f_equal; apply map_ext_in; intros c Hc.
    - apply Hex. by apply list_elem_of_In.
    - apply Hdir. by apply list_elem_of_In. }
  assert (Hrep : existence_report s = existence_report s').
  { unfold existence_report. do 2 f_equal; [| f_equal]; apply map_ext_in; intros c Hc.
    - rewrite Hex; [done |]. by apply list_elem_of_In.
    - rewrite Hdir; [done |]. by apply list_elem_of_In. }
  pose proof (main_run s) as Hs. pose proof (main_run s') as Hs'.
  cbv zeta in Hs, Hs'. rewrite <- Hprobe, <- Hres, <- Hrep in Hs'.
  destruct (probe_result _ true) as [passed | e];
    by rewrite (output_of_validated _ _ _ _ Hs), (output_of_validated _ _ _ _ Hs'), Hs, Hs'.
Qed.

Lemma main_reads_declared_paths_only_witness :
  let s := Examples.ready in
  let s' := without "scripts/validate-setup.py" Examples.ready in
  (main s).1 = (main s').1 ∧ output_of main s = output_of main s'.
Proof.
  cbv zeta.
  apply (main_reads_declared_paths_only Examples.ready
           (without "scripts/validate-setup.py" Examples.ready)).
  - intros c Hc.
    repeat (apply elem_of_cons in Hc as [-> | Hc]; [reflexivity |]).
    by apply elem_of_nil in Hc.
  - reflexivity.
Defined.

(** X4. Whatever it finds, [main] leaves the file system, the loader and
    the working directory as they were, puts ["backend"] in front of
    [sys.path] once and attempts one import, that of [src.config]; this
    also when it ends with an exception.  Called again in the same
    process it finds the same thirteen existence results, and
    ["backend"] is on [sys.path] twice. *)
Theorem main_effects s :
  let s1 := (main s).2 in
  fs s1 = fs s ∧ loader s1 = loader s ∧ cwd s1 = cwd s ∧
  sys_path s1 = "backend" :: sys_path s ∧
  import_log s1 = import_log s ++ ["src.config"] ∧
  stdout s1 = stdout s ++ output_of main s ∧
  existence_results s1 = existence_results s ∧
  sys_path (main s1).2 = "backend" :: "backend" :: sys_path s.
Proof.
  cbv zeta. rewrite (main_final_state (main s).2), (main_final_state s).
  by repeat split.
Qed.

(** X5. Neither a loop over a group nor the configuration test stops
    early or sets [all_good] back: started with [all_good] false they
    do all that they do when started with it true, and then give false. *)
Theorem all_good_stays_false check checks :
  eqM (for_checks check checks false) (run_all check checks ;; ret false) ∧
  eqM (configuration_test false) (configuration_test true ;; ret false).
Proof.
  split; [apply (for_checks_run_all check checks false) |].
  apply (configuration_test_and false).
Qed.

(** X6. Where the directory check passes, the file check passes too;
    the file check alone passes exactly where something that is no
    directory is at the path. *)
Theorem directory_check_implies_file_check p d d' s :
  ((check_directory_exists p d s).1 = Returns true →
   (check_file_exists p d' s).1 = Returns true) ∧
  ((check_file_exists p d' s).1 = Returns true ∧
   (check_directory_exists p d s).1 = Returns false
   ↔ fs s !! resolve (cwd s) (Path p) = Some File ∨
     fs s !! resolve (cwd s) (Path p) = Some Special).
Proof.
  rewrite check_file_exists_run, check_directory_exists_run.
  unfold exists_at, dir_at. simpl.
  destruct (fs s !! resolve (cwd s) (Path p)) as [[] |]; split; try done;
    split; try (by intros [? ?]); try (by intros [? | ?]); auto.
Qed.

Lemma directory_check_implies_file_check_witness :
  let s := Examples.ready in
  (check_file_exists "backend/tests" "Tests" s).1 = Returns true ∧
  ((check_file_exists "docker-compose.yml" "Docker composition" s).1 = Returns true ∧
   (check_directory_exists "docker-compose.yml" "Docker composition" s).1 = Returns false).
Proof.
  cbv zeta. split.
  - apply (proj1 (directory_check_implies_file_check
                    "backend/tests" "Backend tests directory" "Tests" Examples.ready)).
    reflexivity.
  - apply (proj2 (proj2 (directory_check_implies_file_check
                    "docker-compose.yml" "Docker composition" "Docker composition"
                    Examples.ready))).
    by left.
Defined.

(** X7. When [get_settings()] has returned and reading
    [settings.app_name] raises an [Exception], the configuration test
    has already printed that the configuration loaded; the failure line
    follows it, the test fails and [main] returns 1. *)
Theorem loaded_line_precedes_failure s e :
  probe_configuration (loader s) (config_dirs s) = Failed Reading e →
  isinstance e Exception = true →
  (∀ all_good,
     (configuration_test all_good s).1 = Returns false ∧
     output_of (configuration_test all_good) s
     = [ nl +:+ "3. Backend Configuration Test:";
         "✓ Configuration loaded successfully";
         failure_line (kind_of_exception e) e ]) ∧
  (main s).1 = Returns 1%Z.
Proof.
  intros Hprobe He. split.
  - intros all_good. pose proof (configuration_test_run all_good s) as Hrun.
    cbv zeta in Hrun. rewrite Hprobe in Hrun.
    rewrite (output_of_validated _ _ _ _ Hrun), Hrun.
    unfold probe_result, configuration_report. by rewrite He.
  - by rewrite main_returns_or_propagates, Hprobe, He.
Qed.

Lemma loaded_line_precedes_failure_witness :
  let s := Examples.no_app_name in
  let e := Exn AttributeError "'Settings' object has no attribute 'app_name'" in
  probe_configuration (loader s) (config_dirs s) = Failed Reading e ∧
  output_of (configuration_test true) s
  = [ nl +:+ "3. Backend Configuration Test:";
      "✓ Configuration loaded successfully";
      "✗ Configuration error: 'Settings' object has no attribute 'app_name'" ] ∧
  (main s).1 = Returns 1%Z.
Proof.
  cbv zeta. split; [reflexivity |].
  destruct (loaded_line_precedes_failure Examples.no_app_name
              (Exn AttributeError "'Settings' object has no attribute 'app_name'")
              eq_refl eq_refl) as [Htest Hmain].
  split; [apply (Htest true) | exact Hmain].
Defined.

(** X8. The report follows the declarations: the line of the i-th file
    check is line 3+i of the output and the line of the i-th directory
    check line 11+i (counting from 0), each a tick line or a cross line
    by that check's own result. *)
Theorem report_follows_declaration_order s (i : nat) c :
  (structure_checks !! i = Some c →
   output_of main s !! (3 + i) = Some (report_line (exists_at s c.1) c)) ∧
  (directory_checks !! i = Some c →
   output_of main s !! (11 + i) = Some (report_line (dir_at s c.1) c)).
Proof.
  destruct (main_prints_existence_report s) as [rest ->].
  unfold existence_report. split; intros Hc.
  - rewrite lookup_app_l.
    2: { apply lookup_lt_Some in Hc. simpl in *. lia. }
    do 7 (destruct i as [| i]; [by injection Hc as <- |]). done.
  - rewrite lookup_app_l.
    2: { apply lookup_lt_Some in Hc. simpl in *. lia. }
    do 6 (destruct i as [| i]; [by injection Hc as <- |]). done.
Qed.

Lemma report_follows_declaration_order_witness :
  output_of main Examples.no_requirements !! 5
  = Some "✗ Backend dependencies: backend/requirements.txt (NOT FOUND)" ∧
  output_of main Examples.no_requirements !! 14
  = Some "✓ Backend tests directory: backend/tests".
Proof.
  split.
  - apply (proj1 (report_follows_declaration_order Examples.no_requirements 2
                    ("backend/requirements.txt", "Backend dependencies"))).
    reflexivity.
  - apply (proj2 (report_follows_declaration_order Examples.no_requirements 3
                    ("backend/tests", "Backend tests directory"))).
    reflexivity.
Defined.

End ValidatorRuns.

(** ** More on the Startup Prober *)

Module ProberRuns.
Import Python Frame TestStartup Prober.

(** *** Where the script goes before [main] *)

(** X9. Started by the absolute path of a script two levels below a
    directory [root], the script moves to [root] whatever directory it
    was started in, and runs [main] there with ["backend"] in front of
    [sys.path]. *)
Theorem script_moves_two_levels_up root dir name s :
  forallb plain_part (root ++ [dir; name]) = true →
  fs s !! root = Some Dir →
  script (abs_str (root ++ [dir; name])) s
  = main (with_cwd root (with_sys_path "backend" s)) ∧
  cwd (script (abs_str (root ++ [dir; name])) s).2 = root.
Proof.
  intros Hplain Hroot.
  pose proof (script_run (abs_str (root ++ [dir; name])) s) as Hrun.
  cbv zeta in Hrun. rewrite Pathlib.Path_abs_str in Hrun by done.
  unfold parent, resolve in Hrun.
  change (root ++ [dir; name]) with (root ++ [dir] ++ [name]) in Hrun.
  rewrite app_assoc, !removelast_last in Hrun.
  specialize (Hrun Hroot). rewrite <- app_assoc in Hrun.
  change (root ++ [dir] ++ [name]) with (root ++ [dir; name]) in Hrun.
  split; [done |].
  rewrite Hrun.
  by destruct (prober_keeps_world (with_cwd root (with_sys_path "backend" s)))
    as (_ & _ & -> & _).
Qed.

Lemma script_moves_two_levels_up_witness :
  script "/home/dev/pcm/scripts/test-startup.py" Examples.started_in_scripts
  = main (with_cwd Examples.project_root
            (with_sys_path "backend" Examples.started_in_scripts)) ∧
  cwd (script "/home/dev/pcm/scripts/test-startup.py" Examples.started_in_scripts).2
  = Examples.project_root.
Proof.
  apply (script_moves_two_levels_up Examples.project_root "scripts" "test-startup.py"
           Examples.started_in_scripts); reflexivity.
Defined.

(** X10. When [__file__] is a bare file name, two levels up is the
    current directory: the script stays where it was started and runs
    [main] there. *)
Theorem script_with_bare_name_stays name s :
  plain_part name = true →
  fs s !! cwd s = Some Dir →
  script name s = main (with_sys_path "backend" s) ∧
  cwd (script name s).2 = cwd s.
Proof.
  intros Hplain Hwd.
  pose proof (script_run name s) as Hrun. cbv zeta in Hrun.
  rewrite Pathlib.Path_bare in Hrun by done.
  unfold parent, resolve in Hrun. simpl removelast in Hrun.
  rewrite app_nil_r in Hrun. specialize (Hrun Hwd).
  assert (Hsame : with_cwd (cwd s) (with_sys_path "backend" s)
                  = with_sys_path "backend" s) by by destruct s.
  rewrite Hsame in Hrun. split; [done |].
  rewrite Hrun.
  by destruct (prober_keeps_world (with_sys_path "backend" s)) as (_ & _ & -> & _).
Qed.

Lemma script_with_bare_name_stays_witness :
  let s := Examples.started_in_scripts in
  script "test-startup.py" s = main (with_sys_path "backend" s) ∧
  cwd (script "test-startup.py" s).2 = Examples.project_root ++ ["scripts"].
Proof.
  cbv zeta.
  apply (script_with_bare_name_stays "test-startup.py" Examples.started_in_scripts);
    reflexivity.
Defined.

(** X11. When there is no directory two levels above [__file__], the
    [chdir] raises an [OSError] that nothing catches: [main] does not
    run, nothing is printed and no import is attempted. *)
Theorem script_stops_without_directory file s :
  fs s !! resolve (cwd s) (parent (parent (Path file))) ≠ Some Dir →
  ∃ e, script file s = (Raises e, with_sys_path "backend" s) ∧
       isinstance e OSError = true ∧
       output_of (script file) s = [] ∧
       import_log (script file s).2 = import_log s.
Proof.
  intros Hnot.
  assert (Hs : ∃ e, script file s = (Raises e, with_sys_path "backend" s) ∧
                    isinstance e OSError = true).
  { unfold script. rewrite bind_sys_path_insert0.
    unfold bind, chdir. cbn [fs cwd with_sys_path].
    destruct (fs s !! resolve (cwd s) (parent (parent (Path file)))) as [[] |];
      try done; eexists; split; reflexivity. }
  destruct Hs as (e & Hs & He). exists e.
  split; [done |]. split; [done |]. unfold output_of. rewrite Hs.
  split; [apply drop_all | done].
Qed.

Lemma script_stops_without_directory_witness :
  ∃ e, script "/srv/pcm/scripts/test-startup.py" Examples.ready
       = (Raises e, with_sys_path "backend" Examples.ready) ∧
       isinstance e OSError = true ∧
       output_of (script "/srv/pcm/scripts/test-startup.py") Examples.ready = [] ∧
       import_log (script "/srv/pcm/scripts/test-startup.py" Examples.ready).2
       = import_log Examples.ready.
Proof.
  apply (script_stops_without_directory "/srv/pcm/scripts/test-startup.py"
           Examples.ready).
  by vm_compute.
Defined.

End ProberRuns.
